(** * k8s-log-forwarder: the log sink server ([server.py])

    A shallow embedding of [server.py] and the properties of its request
    handler.  The program is a thin layer over CPython's [http.server],
    [argparse] and file objects; the parts of those libraries that the
    handler observes are modelled here as executable functions:

    - [int] on a header value (a latin-1 decoded [str]);
    - [Message.get], the case-insensitive header lookup;
    - [BufferedReader.read] on the connection's [rfile];
    - [open(..., 'ab')], [write] and the closing of the file by [with];
    - [send_response] and [end_headers], recorded as events;
    - the replacement of leading slashes by [parse_request].

    Effects are threaded through a state-and-exception monad [M]: an
    exception keeps the state reached when it was raised, and a call that
    waits for ever ([Blocked]) lets nothing after it happen. *)

From Stdlib Require Import ZArith Lia List Bool Arith.
From Stdlib Require Import Strings.String Strings.Ascii Strings.Byte.
Import ListNotations.

Local Open Scope Z_scope.

(** ** Data *)

Definition bytes := list byte.

(** [b"\n"] *)
Definition NL : byte := x0a.

Definition bytes_eqb (a b : bytes) : bool :=
  if list_eq_dec Byte.byte_eq_dec a b then true else false.

(** The exceptions the handler can meet. *)
Inductive exn : Type :=
| ValueError
| TypeError
| OverflowError
| MemoryError
| OSError
| AttributeError
| SystemExit (code : Z).

(** How a call ends: it returns, it raises, or it never comes back because
    it waits for bytes that do not arrive. *)
Inductive result (A : Type) : Type :=
| Ok (a : A)
| Raise (e : exn)
| Blocked.
Arguments Ok {A} a.
Arguments Raise {A} e.
Arguments Blocked {A}.

(** A Python value as far as the program meets one: a [str], an [int], or
    the empty list that [argparse] stores for [--flag=--]. *)
Inductive pyval : Type :=
| PyStr (s : string)
| PyInt (z : Z)
| PyEmptyList.

(** ** [int(str)] in base 10

    CPython first maps the Unicode white space of the string to [' '], then
    skips leading white space, an optional sign, reads digits separated by
    single underscores, skips trailing white space and requires the end of
    the string.  For the code points below 256 (header values are decoded as
    latin-1) the white space accepted is [\t \n \v \f \r], space, U+0085 and
    U+00A0, and the only digits are [0-9].  More than [int_max_str_digits]
    digits raise [ValueError] (CPython 3.11 and later). *)

Definition int_max_str_digits : nat := 4300.

Definition is_space (c : ascii) : bool :=
  let n := nat_of_ascii c in
  (((9 <=? n) && (n <=? 13)) || (n =? 32) || (n =? 133) || (n =? 160))%nat.

Definition digit_of (c : ascii) : option Z :=
  let n := nat_of_ascii c in
  if ((48 <=? n) && (n <=? 57))%nat then Some (Z.of_nat n - 48) else None.

Fixpoint skip_space (s : string) : string :=
  match s with
  | String c s' => if is_space c then skip_space s' else s
  | EmptyString => s
  end.

(** The digit scan of [long_from_string_base]: [prev_us] says that the
    previous character was an underscore; the result is the value, the number
    of digits and the unread rest. *)
Fixpoint scan_digits (s : string) (prev_us : bool) (acc : Z) (digits : nat)
  : option (Z * nat * string) :=
  match s with
  | String c s' =>
      match digit_of c with
      | Some d => scan_digits s' false (10 * acc + d) (S digits)
      | None =>
          if Ascii.eqb c "_"%char
          then (if prev_us then None else scan_digits s' true acc digits)
          else (if prev_us then None else Some (acc, digits, s))
      end
  | EmptyString => if prev_us then None else Some (acc, digits, s)
  end.

Definition parse_unsigned (s : string) : option Z :=
  match s with
  | String "_"%char _ => None
  | _ =>
      match scan_digits s false 0 0 with
      | Some (v, digits, rest) =>
          if (digits =? 0)%nat then None
          else if (int_max_str_digits <? digits)%nat then None
          else match skip_space rest with
               | EmptyString => Some v
               | _ => None
               end
      | None => None
      end
  end.

Definition int_of_str (s : string) : option Z :=
  match skip_space s with
  | String "+"%char s' => parse_unsigned s'
  | String "-"%char s' => option_map Z.opp (parse_unsigned s')
  | s' => parse_unsigned s'
  end.

(** [int(v)]: the identity on an [int], the parse above on a [str], a
    [TypeError] on a list. *)
Definition int (v : pyval) : result Z :=
  match v with
  | PyInt z => Ok z
  | PyStr s => match int_of_str s with
               | Some z => Ok z
               | None => Raise ValueError
               end
  | PyEmptyList => Raise TypeError
  end.

(** ** [self.path]

    [BaseHTTPRequestHandler.parse_request] stores the request target of the
    request line in [self.path], after it has replaced two or more slashes
    at its start by one:
    [if self.path.startswith('//'): self.path = '/' + self.path.lstrip('/')]. *)



(** ** [self.headers.get(name, failobj)]

    [email.message.Message.get]: the first header whose name equals [name]
    when both are lower-cased.  [lower] is [str.lower] on code points below
    256. *)

Definition lower_char (c : ascii) : ascii :=
  let n := nat_of_ascii c in
  if (((65 <=? n) && (n <=? 90))
      || ((192 <=? n) && (n <=? 222) && negb (n =? 215)))%nat
  then ascii_of_nat (n + 32)
  else c.

Fixpoint lower (s : string) : string :=
  match s with
  | String c s' => String (lower_char c) (lower s')
  | EmptyString => EmptyString
  end.

Definition Headers := list (string * string).

Fixpoint get (hs : Headers) (name : string) (failobj : pyval) : pyval :=
  match hs with
  | (k, v) :: hs' =>
      if String.eqb (lower k) (lower name) then PyStr v
      else get hs' name failobj
  | [] => failobj
  end.

(** ** The world of one request *)

(** What the handler does to the log file, in order. *)
Inductive fs_event : Type :=
| OpenAppend                 (* open(LOG_FILE, 'ab') succeeded *)
| OpenFailed                 (* open(LOG_FILE, 'ab') raised *)
| Wrote (bs : bytes)         (* bytes that reached the file *)
| WriteFailed                (* a write raised *)
| Close.                     (* the with block closed the file *)

(** The file system as the program sees it: one file, [LOG_FILE], that is
    [received_logs.txt] in the working directory, absent ([None]) or with
    its contents; whether it may be opened for appending;
    the room left on the device; and the log of operations.  A write that
    does not fit leaves the bytes that did fit and raises [OSError].
    Buffering inside the file object is not modelled: the handler closes
    the file before it does anything else, so only the outcome at the end of
    the [with] block is observable. *)
Record FileSystem : Type := mkFS {
  log_file : option bytes;
  may_open : bool;
  free_space : nat;
  fs_log : list fs_event
}.

(** What the handler sends on the connection. *)
Inductive event : Type :=
| SendResponse (code : Z)
| EndHeaders
| Body (bs : bytes).

(** What the handler does, file operations and answers in one sequence. *)
Inductive io_event : Type :=
| FileOp (e : fs_event)
| Sent (e : event).

(** The state of a handler at work.  [rfile] holds the bytes the peer has
    sent that the handler has not read yet; they are bytes the process can
    hold, so a read of no more than these returns at once.  [eof] says that
    the peer has closed its side after them: when it has not, a read that
    wants more waits for ever (no timeout is set).  [memory] is the largest
    buffer the allocator gives to a read that wants more than has arrived. *)
Record State : Type := mkState {
  fs : FileSystem;
  rfile : bytes;
  wfile : list event;           (* what was sent so far *)
  eof : bool;
  memory : nat;
  history : list io_event       (* what was done so far, in order *)
}.

Definition set_fs (f : FileSystem) (s : State) : State :=
  mkState f (rfile s) (wfile s) (eof s) (memory s) (history s).
Definition set_rfile (r : bytes) (s : State) : State :=
  mkState (fs s) r (wfile s) (eof s) (memory s) (history s).
Definition emit (e : event) (s : State) : State :=
  mkState (fs s) (rfile s) (wfile s ++ [e]) (eof s) (memory s)
          (history s ++ [Sent e]).
Definition note (e : fs_event) (s : State) : State :=
  mkState (fs s) (rfile s) (wfile s) (eof s) (memory s)
          (history s ++ [FileOp e]).

(** The request as [BaseHTTPRequestHandler.parse_request] leaves it in
    [self]: [self.path], that is [self_path] of the request target, and
    [self.headers]. *)
Record Request : Type := mkRequest {
  path : string;
  headers : Headers
}.


(** ** The monad *)

Definition M (A : Type) : Type := State -> result A * State.

Definition ret {A} (a : A) : M A := fun s => (Ok a, s).

Definition bind {A B} (m : M A) (k : A -> M B) : M B :=
  fun s => match m s with
           | (Ok a, s') => k a s'
           | (Raise e, s') => (Raise e, s')
           | (Blocked, s') => (Blocked, s')
           end.

Definition raise {A} (e : exn) : M A := fun s => (Raise e, s).

Definition lift {A} (r : result A) : M A := fun s => (r, s).

Declare Scope py_scope.
Delimit Scope py_scope with py.
Notation "x <- m ;; k" := (bind m (fun x => k))
  (at level 61, m at next level, right associativity) : py_scope.
Notation "m ;; k" := (bind m (fun _ => k))
  (at level 61, right associativity) : py_scope.
Local Open Scope py_scope.

(** ** The library calls of [do_POST] *)

Definition send_response (code : Z) : M unit :=
  fun s => (Ok tt, emit (SendResponse code) s).

Definition end_headers : M unit :=
  fun s => (Ok tt, emit EndHeaders s).

(** [sys.maxsize] of a 64-bit CPython. *)
Definition PY_SSIZE_T_MAX : Z := 2 ^ 63 - 1.

(** The bytes of a [bytes] object besides its contents: a [bytes] of more
    than [sys.maxsize - PyBytesObject_SIZE] bytes cannot be made. *)
Definition PyBytesObject_SIZE : Z := 33.

(** [self.rfile.read(n)] on the [BufferedReader] of the connection.  A size
    that does not fit [Py_ssize_t] raises [OverflowError], one below [-1]
    raises [ValueError].  [-1] reads until the peer closes.  For [n >= 0],
    [n] bytes that have arrived are returned at once; otherwise a buffer of
    [n] bytes is allocated first, which raises [OverflowError] ("byte string
    is too large") or [MemoryError], and then the read waits for [n] bytes
    or for the peer to close, whichever comes first. *)
Definition rfile_read (n : Z) : M bytes :=
  fun s =>
    if (n <? - PY_SSIZE_T_MAX - 1) || (PY_SSIZE_T_MAX <? n)
    then (Raise OverflowError, s)
    else if n <? -1 then (Raise ValueError, s)
    else if n =? -1
    then (if eof s then (Ok (rfile s), set_rfile [] s) else (Blocked, s))
    else if n <=? Z.of_nat (List.length (rfile s))
    then (Ok (firstn (Z.to_nat n) (rfile s)),
          set_rfile (skipn (Z.to_nat n) (rfile s)) s)
    else if PY_SSIZE_T_MAX - PyBytesObject_SIZE <? n
    then (Raise OverflowError, s)
    else if Z.of_nat (memory s) <? n then (Raise MemoryError, s)
    else if eof s then (Ok (rfile s), set_rfile [] s)
    else (Blocked, s).

Definition log_fs (e : fs_event) (f : FileSystem) : FileSystem :=
  mkFS (log_file f) (may_open f) (free_space f) (fs_log f ++ [e]).

(** [open(LOG_FILE, 'ab')]: creates the file when it is absent, never
    truncates it. *)
Definition open_ab : M unit :=
  fun s =>
    let f := fs s in
    if may_open f
    then (Ok tt,
          note OpenAppend
            (set_fs (log_fs OpenAppend
                       (mkFS (Some (match log_file f with
                                    | Some c => c
                                    | None => []
                                    end))
                             (may_open f) (free_space f) (fs_log f))) s))
    else (Raise OSError, note OpenFailed (set_fs (log_fs OpenFailed f) s)).

(** [f.write(bs)] on a file opened for appending. *)
Definition file_write (bs : bytes) : M unit :=
  fun s =>
    let f := fs s in
    let old := match log_file f with Some c => c | None => [] end in
    if (List.length bs <=? free_space f)%nat
    then (Ok tt,
          note (Wrote bs)
            (set_fs (log_fs (Wrote bs)
                       (mkFS (Some (old ++ bs)) (may_open f)
                             (free_space f - List.length bs) (fs_log f))) s))
    else (Raise OSError,
          note WriteFailed
            (note (Wrote (firstn (free_space f) bs))
               (set_fs (log_fs WriteFailed
                          (log_fs (Wrote (firstn (free_space f) bs))
                             (mkFS (Some (old ++ firstn (free_space f) bs))
                                   (may_open f) 0%nat (fs_log f)))) s))).

Definition file_close : M unit :=
  fun s => (Ok tt, note Close (set_fs (log_fs Close (fs s)) s)).

(** [with open(LOG_FILE, 'ab') as f: body]: the file is closed on the way
    out, whether [body] returned or raised, and an exception of [body]
    goes on. *)
Definition with_open_ab {A} (body : M A) : M A :=
  fun s =>
    match open_ab s with
    | (Raise e, s1) => (Raise e, s1)
    | (Blocked, s1) => (Blocked, s1)
    | (Ok _, s1) =>
        match body s1 with
        | (Blocked, s2) => (Blocked, s2)
        | (r, s2) => (r, snd (file_close s2))
        end
    end.

(** [data.endswith(suffix)] *)
Definition endswith (data suffix : bytes) : bool :=
  (List.length suffix <=? List.length data)%nat
  && bytes_eqb (skipn (List.length data - List.length suffix) data) suffix.

(** ** [make_handler] and [do_POST] *)

Definition do_POST (endpoint : string) (self : Request) : M unit :=
  if negb (String.eqb (path self) endpoint)
  then
    send_response 404 ;;
    end_headers ;;
    ret tt
  else
    length <- lift (int (get (headers self) "Content-Length" (PyInt 0))) ;;
    data <- rfile_read length ;;
    with_open_ab
      (file_write data ;;
       if negb (endswith data [NL]) then file_write [NL] else ret tt) ;;
    send_response 204 ;;
    end_headers.

(** The class [make_handler] returns: its [do_POST] closes over [endpoint],
    and [log_message] does nothing. *)
Record Handler : Type := mkHandler {
  handler_do_POST : Request -> M unit;
  handler_log_message : string -> M unit
}.

Definition make_handler (endpoint : string) : Handler :=
  mkHandler (do_POST endpoint) (fun _ => ret tt).

(** ** The server loop

    [socketserver.TCPServer.serve_forever] takes the connections one at a
    time; each one carries a request and the bytes that follow its headers,
    and gets a handler object of its own.  An exception that leaves the
    handler is reported by the server, which goes on with the next
    connection; the file system is what the connections share.  The server
    has one thread: while a handler waits, no other connection is taken. *)

Record Connection : Type := mkConnection {
  conn_request : Request;
  conn_stream : bytes;        (* the bytes the peer sends after the headers *)
  conn_eof : bool;            (* the peer then closes its side *)
  conn_memory : nat           (* the largest buffer a read can get *)
}.

(** The handler of a connection as it starts: nothing read, nothing sent. *)
Definition handler_state (f : FileSystem) (c : Connection) : State :=
  mkState f (conn_stream c) [] (conn_eof c) (conn_memory c) [].

Fixpoint serve_forever (h : Handler) (conns : list Connection)
  (f : FileSystem) : list (result unit * list event) * FileSystem :=
  match conns with
  | [] => ([], f)
  | c :: conns' =>
      match handler_do_POST h (conn_request c) (handler_state f c) with
      | (Blocked, s) => ([(Blocked, wfile s)], fs s)
      | (r, s) =>
          match serve_forever h conns' (fs s) with
          | (rs, f') => ((r, wfile s) :: rs, f')
          end
      end
  end.

(** ** [argparse]

    The parser of [__main__]: the options in the order [add_argument]
    registers them, behind the [-h]/[--help] one every parser has.  The
    model follows [ArgumentParser.parse_args] for a parser with optional
    arguments only: every token is first classified ([parse_optional]),
    then the options are consumed from left to right; what no option takes
    is collected and refused at the end.  An error leaves through
    [SystemExit 2], the help through [SystemExit 0].  Tokens are strings
    of code points below 256. *)

Inductive arg_type : Type :=
| TypeNone          (* no type given: the string itself *)
| TypeInt.          (* type=int *)

Inductive Action : Type :=
| HelpAction
| StoreAction (dest : string) (type : arg_type) (default : pyval).

(** [_option_string_actions], in insertion order. *)
Definition ArgumentParser := list (string * Action).

Definition new_parser : ArgumentParser :=
  [("-h"%string, HelpAction); ("--help"%string, HelpAction)].

(** [dest] of a long option: the option string without its dashes. *)
Fixpoint lstrip_dash (s : string) : string :=
  match s with
  | String "-"%char s' => lstrip_dash s'
  | _ => s
  end.

Definition add_argument (p : ArgumentParser) (flag : string)
  (type : arg_type) (default : pyval) : ArgumentParser :=
  p ++ [(flag, StoreAction (lstrip_dash flag) type default)].

Definition Namespace := list (string * pyval).

Fixpoint setattr (ns : Namespace) (dest : string) (v : pyval) : Namespace :=
  match ns with
  | (k, w) :: ns' =>
      if String.eqb k dest then (k, v) :: ns' else (k, w) :: setattr ns' dest v
  | [] => [(dest, v)]
  end.

Fixpoint getattr (ns : Namespace) (dest : string) : option pyval :=
  match ns with
  | (k, w) :: ns' => if String.eqb k dest then Some w else getattr ns' dest
  | [] => None
  end.

Fixpoint option_action (p : ArgumentParser) (s : string) : option Action :=
  match p with
  | (k, a) :: p' => if String.eqb k s then Some a else option_action p' s
  | [] => None
  end.

(** [s.split('=', 1)] when ['=' in s]. *)
Fixpoint split_eq (s : string) : option (string * string) :=
  match s with
  | String c s' =>
      if Ascii.eqb c "="%char then Some (EmptyString, s')
      else match split_eq s' with
           | Some (l, r) => Some (String c l, r)
           | None => None
           end
  | EmptyString => None
  end.

Fixpoint contains_char (c : ascii) (s : string) : bool :=
  match s with
  | String d s' => Ascii.eqb c d || contains_char c s'
  | EmptyString => false
  end.

Definition is_digit (c : ascii) : bool :=
  match digit_of c with Some _ => true | None => false end.

Fixpoint drop_digits (s : string) : string :=
  match s with
  | String c s' => if is_digit c then drop_digits s' else s
  | EmptyString => s
  end.

Definition starts_with_digit (s : string) : bool :=
  match s with
  | String c _ => is_digit c
  | EmptyString => false
  end.

(** The end of a match of [$]: the end of the string, or its last newline. *)
Definition at_dollar (s : string) : bool :=
  match s with
  | EmptyString => true
  | String c EmptyString => Ascii.eqb c "010"%char
  | _ => false
  end.

(** [_negative_number_matcher]: ['^-\d+$|^-\d*\.\d+$']. *)
Definition negative_number (s : string) : bool :=
  match s with
  | String "-"%char s' =>
      (starts_with_digit s' && at_dollar (drop_digits s'))
      || match drop_digits s' with
         | String "."%char t => starts_with_digit t && at_dollar (drop_digits t)
         | _ => false
         end
  | _ => false
  end.

(** An option tuple: the action (none for an unknown option), the option
    string and the explicit argument. *)
Definition option_tuple : Type := option Action * string * option string.

(** [_get_option_tuples] with [allow_abbrev]: the options a token may
    abbreviate. *)
Definition get_option_tuples (p : ArgumentParser) (s : string)
  : list option_tuple :=
  match s with
  | String _ (String "-"%char _) =>
      let '(option_prefix, explicit_arg) :=
        match split_eq s with
        | Some (l, r) => (l, Some r)
        | None => (s, None)
        end in
      flat_map (fun ka : string * Action =>
                  if String.prefix option_prefix (fst ka)
                  then [(Some (snd ka), fst ka, explicit_arg)] else [])
               p
  | String c0 (String c1 rest) =>
      let short_option_prefix := String c0 (String c1 EmptyString) in
      flat_map (fun ka : string * Action =>
                  if String.eqb (fst ka) short_option_prefix
                  then [(Some (snd ka), fst ka, Some rest)]
                  else if String.prefix s (fst ka)
                       then [(Some (snd ka), fst ka, None)] else [])
               p
  | _ => []
  end.

(** [_parse_optional]: [None] for a token meant as an argument. *)
Definition parse_optional (p : ArgumentParser) (s : string)
  : result (option option_tuple) :=
  match s with
  | EmptyString => Ok None
  | String c rest =>
      if negb (Ascii.eqb c "-"%char) then Ok None
      else
        match option_action p s with
        | Some a => Ok (Some (Some a, s, None))
        | None =>
            match rest with
            | EmptyString => Ok None
            | _ =>
                let exact :=
                  match split_eq s with
                  | Some (l, r) =>
                      match option_action p l with
                      | Some a => Some (Some a, l, Some r)
                      | None => None
                      end
                  | None => None
                  end in
                match exact with
                | Some t => Ok (Some t)
                | None =>
                    match get_option_tuples p s with
                    | _ :: _ :: _ => Raise (SystemExit 2)
                    | [t] => Ok (Some t)
                    | [] =>
                        if negative_number s then Ok None
                        else if contains_char " "%char s then Ok None
                        else Ok (Some (None, s, None))
                    end
                end
            end
        end
  end.

(** A classified token: ['A'], ['O'] or ['-'] in [arg_strings_pattern]. *)
Inductive token : Type :=
| TokA (s : string)
| TokO (t : option_tuple)
| TokSep.

Fixpoint classify (p : ArgumentParser) (sep_seen : bool) (argv : list string)
  : result (list token) :=
  match argv with
  | [] => Ok []
  | s :: argv' =>
      if sep_seen then
        match classify p true argv' with
        | Ok ts => Ok (TokA s :: ts)
        | Raise e => Raise e
        | Blocked => Blocked
        end
      else if String.eqb s "--" then
        match classify p true argv' with
        | Ok ts => Ok (TokSep :: ts)
        | Raise e => Raise e
        | Blocked => Blocked
        end
      else
        match parse_optional p s with
        | Raise e => Raise e
        | Blocked => Blocked
        | Ok o =>
            match classify p false argv' with
            | Ok ts => Ok (match o with
                           | None => TokA s
                           | Some t => TokO t
                           end :: ts)
            | Raise e => Raise e
            | Blocked => Blocked
            end
        end
  end.

Fixpoint all_h (s : string) : bool :=
  match s with
  | String c s' => Ascii.eqb c "h"%char && all_h s'
  | EmptyString => true
  end.

(** [_get_value]: the type function applied to the argument string. *)
Definition get_value (type : arg_type) (s : string) : result pyval :=
  match type with
  | TypeNone => Ok (PyStr s)
  | TypeInt => match int (PyStr s) with
               | Ok z => Ok (PyInt z)
               | Raise _ => Raise (SystemExit 2)
               | Blocked => Blocked
               end
  end.

(** The loop of [_parse_known_args] over the classified tokens; [extras]
    says that some token was taken by no option. *)
Fixpoint consume (ts : list token) (ns : Namespace) (extras : bool)
  : result Namespace :=
  match ts with
  | [] => if extras then Raise (SystemExit 2) else Ok ns
  | TokA _ :: ts' => consume ts' ns true
  | TokSep :: ts' => consume ts' ns true
  | TokO (None, _, _) :: ts' => consume ts' ns true
  | TokO (Some HelpAction, opt, Some e) :: ts' =>
      (* [-h] takes no argument: what follows it in the token is read as
         further single-dash options, and [-h] is the only one there is *)
      if String.eqb opt "-h" && negb (String.eqb e "") && all_h e
      then Raise (SystemExit 0)
      else Raise (SystemExit 2)
  | TokO (Some HelpAction, _, None) :: _ => Raise (SystemExit 0)
  | TokO (Some (StoreAction dest type _), _, Some e) :: ts' =>
      (* [_get_values] drops a ['--'] and is left with no string at all *)
      if String.eqb e "--" then consume ts' (setattr ns dest PyEmptyList) extras
      else match get_value type e with
           | Ok v => consume ts' (setattr ns dest v) extras
           | Raise x => Raise x
           | Blocked => Blocked
           end
  | TokO (Some (StoreAction dest type _), _, None) :: ts' =>
      (* exactly one argument, which ['--'] is not *)
      match ts' with
      | TokA x :: ts'' =>
          match get_value type x with
          | Ok v => consume ts'' (setattr ns dest v) extras
          | Raise e => Raise e
          | Blocked => Blocked
          end
      | _ => Raise (SystemExit 2)
      end
  end.

(** The namespace of the defaults, one binding per action with a [dest]. *)
Fixpoint defaults (p : ArgumentParser) (ns : Namespace) : Namespace :=
  match p with
  | (_, StoreAction dest _ d) :: p' =>
      defaults p' (match getattr ns dest with
                   | Some _ => ns
                   | None => setattr ns dest d
                   end)
  | (_, HelpAction) :: p' => defaults p' ns
  | [] => ns
  end.

Definition parse_args (p : ArgumentParser) (argv : list string)
  : result Namespace :=
  match classify p false argv with
  | Raise e => Raise e
  | Blocked => Blocked
  | Ok ts => consume ts (defaults p []) false
  end.

(** ** [__main__] *)

Definition parser : ArgumentParser :=
  add_argument
    (add_argument
       (add_argument new_parser "--host" TypeNone (PyStr "0.0.0.0"))
       "--port" TypeInt (PyInt 9000))
    "--endpoint" TypeNone (PyStr "/logs").

(** What [__main__] hands to [TCPServer] and [make_handler]. *)
Record Config : Type := mkConfig {
  host : pyval;
  port : pyval;
  endpoint : pyval
}.

Definition main_config (argv : list string) : result Config :=
  match parse_args parser argv with
  | Raise e => Raise e
  | Blocked => Blocked
  | Ok args =>
      match getattr args "host", getattr args "port", getattr args "endpoint"
      with
      | Some h, Some p, Some e => Ok (mkConfig h p e)
      | _, _, _ => Raise AttributeError
      end
  end.

(** * Properties *)

(** ** Vocabulary of the statements *)

(** The bytes of the log file, none when it is absent. *)
Definition contents (f : FileSystem) : bytes :=
  match log_file f with
  | Some c => c
  | None => []
  end.

(** The bytes that the logged operations put into the file. *)
Fixpoint written (evs : list fs_event) : bytes :=
  match evs with
  | Wrote bs :: evs' => bs ++ written evs'
  | _ :: evs' => written evs'
  | [] => []
  end.

(** The body bytes among the events of a response. *)
Fixpoint response_body (evs : list event) : bytes :=
  match evs with
  | Body bs :: evs' => bs ++ response_body evs'
  | _ :: evs' => response_body evs'
  | [] => []
  end.

(** The status codes among the events of a response. *)
Fixpoint statuses (evs : list event) : list Z :=
  match evs with
  | SendResponse c :: evs' => c :: statuses evs'
  | _ :: evs' => statuses evs'
  | [] => []
  end.

(** The record of a body in the words of the specification: the body, and
    one newline after it unless its last byte is one. *)
Definition newline_terminated (B : bytes) : bytes :=
  match rev B with
  | b :: _ => if Byte.eqb b NL then B else B ++ [NL]
  | [] => B ++ [NL]
  end.

(** What [rfile.read(n)] returns and leaves, when it returns. *)
Definition read_data (n : Z) (r : bytes) : bytes :=
  if n =? -1 then r else firstn (Z.to_nat n) r.

Definition read_rest (n : Z) (r : bytes) : bytes :=
  if n =? -1 then [] else skipn (Z.to_nat n) r.

(** [rfile.read(n)] returns: [n] is [-1] and the peer has closed, or [n]
    bytes have arrived, or the peer has closed after fewer and a buffer of
    [n] bytes can be had. *)
Definition read_returns (n : Z) (s : State) : bool :=
  if n =? -1 then eof s
  else (0 <=? n) && (n <=? PY_SSIZE_T_MAX)
       && ((n <=? Z.of_nat (List.length (rfile s)))
           || ((n <=? PY_SSIZE_T_MAX - PyBytesObject_SIZE)
               && (n <=? Z.of_nat (memory s))
               && eof s)).

(** [rfile.read(n)] waits for ever: the peer keeps the connection open and
    does not send what the read wants. *)
Definition read_waits (n : Z) (s : State) : bool :=
  negb (eof s)
  && ((n =? -1)
      || ((Z.of_nat (List.length (rfile s)) <? n)
          && (n <=? PY_SSIZE_T_MAX - PyBytesObject_SIZE)
          && (n <=? Z.of_nat (memory s)))).

(** The file operations of a record that is stored, and of one that does not
    fit. *)
Definition stored_ops (data : bytes) : list fs_event :=
  [OpenAppend; Wrote data]
    ++ (if endswith data [NL] then [] else [Wrote [NL]])
    ++ [Close].

Definition truncated_ops (data : bytes) (free : nat) : list fs_event :=
  [OpenAppend]
    ++ (if (List.length data <=? free)%nat
        then [Wrote data; Wrote []]
        else [Wrote (firstn free data)])
    ++ [WriteFailed; Close].

(** [self.headers] has a header of that name. *)
Definition has_header (hs : Headers) (name : string) : bool :=
  existsb (fun kv => String.eqb (lower (fst kv)) (lower name)) hs.

(** The file system after a matching POST whose file operations all
    succeed. *)
Definition appended (data : bytes) (f : FileSystem) : FileSystem :=
  mkFS (Some (contents f ++ newline_terminated data))
       (may_open f)
       (free_space f - List.length (newline_terminated data))
       (fs_log f
          ++ [OpenAppend; Wrote data]
          ++ (if endswith data [NL] then [] else [Wrote [NL]])
          ++ [Close]).

(** The file system after a matching POST whose [open] is refused. *)
Definition refused (f : FileSystem) : FileSystem := log_fs OpenFailed f.

(** The file system after a matching POST whose record does not fit: the
    bytes that fit are in the file, and the write of the rest raised. *)
Definition truncated (data : bytes) (f : FileSystem) : FileSystem :=
  mkFS (Some (contents f ++ firstn (free_space f) (newline_terminated data)))
       (may_open f)
       0%nat
       (fs_log f
          ++ [OpenAppend]
          ++ (if (List.length data <=? free_space f)%nat
              then [Wrote data; Wrote []]
              else [Wrote (firstn (free_space f) data)])
          ++ [WriteFailed; Close]).

(** Every way [do_POST] can end. *)
Inductive outcome (endpoint : string) (self : Request) (s : State)
  : result unit * State -> Prop :=
| NotFound :
    path self <> endpoint ->
    outcome endpoint self s
      (Ok tt, emit EndHeaders (emit (SendResponse 404) s))
| BadLength (e : exn) :
    path self = endpoint ->
    int (get (headers self) "Content-Length" (PyInt 0)) = Raise e ->
    outcome endpoint self s (Raise e, s)
| BadRead (n : Z) (e : exn) :
    path self = endpoint ->
    int (get (headers self) "Content-Length" (PyInt 0)) = Ok n ->
    rfile_read n s = (Raise e, s) ->
    outcome endpoint self s (Raise e, s)
| Waits (n : Z) :
    path self = endpoint ->
    int (get (headers self) "Content-Length" (PyInt 0)) = Ok n ->
    read_waits n s = true ->
    outcome endpoint self s (Blocked, s)
| OpenRefused (n : Z) :
    path self = endpoint ->
    int (get (headers self) "Content-Length" (PyInt 0)) = Ok n ->
    read_returns n s = true ->
    may_open (fs s) = false ->
    outcome endpoint self s
      (Raise OSError,
       mkState (refused (fs s)) (read_rest n (rfile s)) (wfile s)
               (eof s) (memory s) (history s ++ [FileOp OpenFailed]))
| DiskFull (n : Z) :
    path self = endpoint ->
    int (get (headers self) "Content-Length" (PyInt 0)) = Ok n ->
    read_returns n s = true ->
    may_open (fs s) = true ->
    (free_space (fs s)
     < List.length (newline_terminated (read_data n (rfile s))))%nat ->
    outcome endpoint self s
      (Raise OSError,
       mkState (truncated (read_data n (rfile s)) (fs s))
               (read_rest n (rfile s)) (wfile s) (eof s) (memory s)
               (history s
                  ++ map FileOp
                       (truncated_ops (read_data n (rfile s))
                                      (free_space (fs s)))))
| Stored (n : Z) :
    path self = endpoint ->
    int (get (headers self) "Content-Length" (PyInt 0)) = Ok n ->
    read_returns n s = true ->
    may_open (fs s) = true ->
    (List.length (newline_terminated (read_data n (rfile s)))
     <= free_space (fs s))%nat ->
    outcome endpoint self s
      (Ok tt,
       mkState (appended (read_data n (rfile s)) (fs s))
               (read_rest n (rfile s))
               (wfile s ++ [SendResponse 204; EndHeaders])
               (eof s) (memory s)
               (history s
                  ++ map FileOp (stored_ops (read_data n (rfile s)))
                  ++ [Sent (SendResponse 204); Sent EndHeaders])).

(** A POST of the body [B]: the request is for [endpoint], its
    [Content-Length] is the length of [B] (for an empty body the header may
    be missing), the length fits a [Py_ssize_t], and [B] is what the
    connection holds next. *)
Definition posts (endpoint : string) (self : Request) (stream : bytes)
  (B : bytes) : Prop :=
  path self = endpoint /\
  int (get (headers self) "Content-Length" (PyInt 0))
  = Ok (Z.of_nat (List.length B)) /\
  Z.of_nat (List.length B) <= PY_SSIZE_T_MAX /\
  exists rest, stream = B ++ rest.

(** The log file can be opened and has room for [n] more bytes. *)
Definition writable (f : FileSystem) (n : nat) : Prop :=
  may_open f = true /\ (n <= free_space f)%nat.

(** The answer to a request for another path. *)
Definition not_found (s : State) (r : result unit * State) : Prop :=
  fst r = Ok tt /\
  wfile (snd r) = wfile s ++ [SendResponse 404; EndHeaders] /\
  fs (snd r) = fs s.

(** The token [tok] selects the option [flag] of the parser [p], in full,
    abbreviated or with [=value]. *)
Definition selects (p : ArgumentParser) (flag tok : string) : bool :=
  match parse_optional p tok with
  | Ok (Some (Some _, opt, _)) => String.eqb opt flag
  | _ => false
  end.

(** The command line does not give the option [flag]. *)
Definition omitted (flag : string) (argv : list string) : bool :=
  forallb (fun tok => negb (selects parser flag tok)) argv.

(** ** Sample requests

    The requests of the scenarios: the server runs with [--endpoint /logs],
    the log file does not exist yet and the disk has room. *)

Definition hello : bytes := list_byte_of_string "hello".

Definition world_nl : bytes := list_byte_of_string "world" ++ [NL].

Definition fresh_fs : FileSystem := mkFS None true 4096 [].

Definition readonly_fs : FileSystem := mkFS None false 4096 [].

Definition full_fs : FileSystem := mkFS (Some hello) true 3 [].

(** [POST target] with the header [Content-Length: cl]. *)
Definition post (target cl : string) : Request :=
  mkRequest target [("Content-Length"%string, cl)].

(** [POST target] without a [Content-Length]. *)
Definition post_bare (target : string) : Request := mkRequest target [].

(** A handler that starts on a request whose peer has sent [stream] and
    waits for the answer with the connection open, as HTTP clients do. *)
Definition arriving (f : FileSystem) (stream : bytes) : State :=
  mkState f stream [] false 4096 [].

(** The same when the peer has closed its side after [stream]. *)
Definition arriving_closed (f : FileSystem) (stream : bytes) : State :=
  mkState f stream [] true 4096 [].

(** A connection of a peer that sends [stream] and keeps the connection
    open. *)
Definition sends (r : Request) (stream : bytes) : Connection :=
  mkConnection r stream false 4096.

(** ** Vocabulary of the further properties *)

(** A file of lines: empty, or with a newline as its last byte. *)
Definition line_structured (c : bytes) : Prop :=
  c = [] \/ exists d, c = d ++ [NL].

(** What one connection brings: the bytes it adds to the log file and the
    events it is answered with.  A POST of a body adds its record and is
    answered 204; a request for another path adds nothing and is answered
    404; a [Content-Length] that [int] or [read] refuses adds nothing and
    gets no answer from the handler. *)
Inductive handled (endpoint : string) (c : Connection)
  : bytes -> list event -> Prop :=
| HandledBody (B : bytes) :
    posts endpoint (conn_request c) (conn_stream c) B ->
    handled endpoint c (newline_terminated B) [SendResponse 204; EndHeaders]
| HandledOtherPath :
    path (conn_request c) <> endpoint ->
    handled endpoint c [] [SendResponse 404; EndHeaders]
| HandledBadLength (e : exn) :
    path (conn_request c) = endpoint ->
    int (get (headers (conn_request c)) "Content-Length" (PyInt 0))
    = Raise e ->
    handled endpoint c [] []
| HandledBadSize (n : Z) :
    path (conn_request c) = endpoint ->
    int (get (headers (conn_request c)) "Content-Length" (PyInt 0)) = Ok n ->
    n < -1 \/ PY_SSIZE_T_MAX < n ->
    handled endpoint c [] [].

(** The token is taken as the argument of the option before it: it is not
    the separator and [parse_optional] does not read it as an option. *)
Definition is_argument (tok : string) : bool :=
  negb (String.eqb tok "--")
  && match parse_optional parser tok with
     | Ok None => true
     | _ => false
     end.

(** A string of decimal digits and nothing else, as a [Content-Length]
    is on the wire, and the number it writes. *)
Fixpoint all_digits (s : string) : bool :=
  match s with
  | String c s' => is_digit c && all_digits s'
  | EmptyString => true
  end.

Fixpoint decimal_value_from (acc : Z) (s : string) : Z :=
  match s with
  | String c s' =>
      decimal_value_from (10 * acc + (Z.of_nat (nat_of_ascii c) - 48)) s'
  | EmptyString => acc
  end.

Definition decimal_value (s : string) : Z := decimal_value_from 0 s.

(** ** Proof steps *)

(** Into the branch of [do_POST] for the endpoint, up to the read. *)
Ltac enter_endpoint Hp Hi :=
  unfold do_POST;
  apply String.eqb_eq in Hp; rewrite Hp; cbn [negb];
  unfold bind at 1; unfold lift; rewrite Hi;
  unfold bind at 1.

(** Through the file operations and the answer. *)
Ltac run_file_ops :=
  unfold bind, with_open_ab, open_ab, file_write, file_close, send_response,
    end_headers, ret, set_fs, set_rfile, emit, note, log_fs, contents;
  cbn [fs rfile wfile eof memory history log_file may_open free_space fs_log
       fst snd].

(** ** Bytes and newlines *)

Lemma bytes_eqb_eq (a b : bytes) : bytes_eqb a b = true <-> a = b.
Proof.
  unfold bytes_eqb.
  destruct (list_eq_dec Byte.byte_eq_dec a b); split; congruence.
Qed.

Lemma endswith_NL_iff (B : bytes) :
  endswith B [NL] = true <-> exists d, B = d ++ [NL].
Proof.
  unfold endswith. rewrite andb_true_iff, bytes_eqb_eq, Nat.leb_le.
  cbn [List.length]. split.
  - intros [_ Hs]. exists (firstn (List.length B - 1) B).
    rewrite <- Hs. symmetry. apply firstn_skipn.
  - intros [d ->]. rewrite length_app. cbn [List.length]. split; [lia|].
    replace (List.length d + 1 - 1)%nat with (List.length d + 0)%nat by lia.
    rewrite skipn_app, skipn_all2 by lia.
    replace (List.length d + 0 - List.length d)%nat with 0%nat by lia.
    reflexivity.
Qed.

Lemma endswith_NL_rev (B : bytes) :
  endswith B [NL] = match rev B with
                    | b :: _ => Byte.eqb b NL
                    | [] => false
                    end.
Proof.
  destruct (endswith B [NL]) eqn:E.
  - apply endswith_NL_iff in E. destruct E as [d ->].
    rewrite rev_app_distr. reflexivity.
  - destruct (rev B) as [|b t] eqn:R; [reflexivity|].
    destruct (Byte.eqb b NL) eqn:Eb; [|reflexivity].
    apply Byte.byte_dec_bl in Eb. subst b.
    assert (H : endswith B [NL] = true).
    { apply endswith_NL_iff. exists (rev t).
      rewrite <- (rev_involutive B), R. reflexivity. }
    congruence.
Qed.

(** The two writes of the [with] block put the newline-terminated record
    into the file. *)
Lemma newline_terminated_endswith (B : bytes) :
  newline_terminated B = B ++ (if endswith B [NL] then [] else [NL]).
Proof.
  unfold newline_terminated. rewrite endswith_NL_rev.
  destruct (rev B) as [|b t]; [reflexivity|].
  destruct (Byte.eqb b NL); [now rewrite app_nil_r | reflexivity].
Qed.

Lemma newline_terminated_length (B : bytes) :
  (List.length B <= List.length (newline_terminated B) <= List.length B + 1)%nat.
Proof.
  rewrite newline_terminated_endswith, length_app.
  destruct (endswith B [NL]); cbn; lia.
Qed.

(** ** The handler, branch by branch *)

Lemma do_POST_mismatch (endpoint : string) (self : Request) (s : State) :
  path self <> endpoint ->
  do_POST endpoint self s
  = (Ok tt, emit EndHeaders (emit (SendResponse 404) s)).
Proof.
  intros H. unfold do_POST.
  apply String.eqb_neq in H. rewrite H. reflexivity.
Qed.

Lemma do_POST_int_raises (endpoint : string) (self : Request) (s : State)
  (e : exn) :
  path self = endpoint ->
  int (get (headers self) "Content-Length" (PyInt 0)) = Raise e ->
  do_POST endpoint self s = (Raise e, s).
Proof.
  intros Hp Hi. unfold do_POST.
  apply String.eqb_eq in Hp. rewrite Hp. cbn [negb].
  unfold bind, lift. rewrite Hi. reflexivity.
Qed.

Lemma rfile_read_ok (n : Z) (s : State) :
  read_returns n s = true ->
  rfile_read n s
  = (Ok (read_data n (rfile s)), set_rfile (read_rest n (rfile s)) s).
Proof.
  unfold read_returns, rfile_read, read_data, read_rest.
  destruct (n =? -1) eqn:E.
  - apply Z.eqb_eq in E. subst n. intros ->. reflexivity.
  - apply Z.eqb_neq in E. intros H.
    apply andb_true_iff in H. destruct H as [H H3].
    apply andb_true_iff in H. destruct H as [H1 H2].
    apply Z.leb_le in H1, H2.
    replace (n <? - PY_SSIZE_T_MAX - 1) with false
      by (symmetry; apply Z.ltb_ge; unfold PY_SSIZE_T_MAX; lia).
    replace (PY_SSIZE_T_MAX <? n) with false
      by (symmetry; apply Z.ltb_ge; lia).
    replace (n <? -1) with false by (symmetry; apply Z.ltb_ge; lia).
    cbn [orb].
    destruct (n <=? Z.of_nat (List.length (rfile s))) eqn:E1; [reflexivity|].
    apply Z.leb_gt in E1. cbn [orb] in H3.
    apply andb_true_iff in H3. destruct H3 as [H3 H6].
    apply andb_true_iff in H3. destruct H3 as [H4 H5].
    apply Z.leb_le in H4, H5.
    replace (PY_SSIZE_T_MAX - PyBytesObject_SIZE <? n) with false
      by (symmetry; apply Z.ltb_ge; lia).
    replace (Z.of_nat (memory s) <? n) with false
      by (symmetry; apply Z.ltb_ge; lia).
    rewrite H6, firstn_all2, skipn_all2 by lia. reflexivity.
Qed.

Lemma rfile_read_waits (n : Z) (s : State) :
  read_waits n s = true -> rfile_read n s = (Blocked, s).
Proof.
  unfold read_waits, rfile_read. intros H.
  apply andb_true_iff in H. destruct H as [He H].
  apply negb_true_iff in He. rewrite He.
  destruct (n =? -1) eqn:E.
  - apply Z.eqb_eq in E. subst n. reflexivity.
  - apply Z.eqb_neq in E. cbn [orb] in H.
    apply andb_true_iff in H. destruct H as [H H3].
    apply andb_true_iff in H. destruct H as [H1 H2].
    apply Z.ltb_lt in H1. apply Z.leb_le in H2, H3.
    replace (n <? - PY_SSIZE_T_MAX - 1) with false
      by (symmetry; apply Z.ltb_ge; unfold PY_SSIZE_T_MAX; lia).
    replace (PY_SSIZE_T_MAX <? n) with false
      by (symmetry; apply Z.ltb_ge;
          unfold PyBytesObject_SIZE in H2; lia).
    replace (n <? -1) with false by (symmetry; apply Z.ltb_ge; lia).
    replace (n <=? Z.of_nat (List.length (rfile s))) with false
      by (symmetry; apply Z.leb_gt; lia).
    replace (PY_SSIZE_T_MAX - PyBytesObject_SIZE <? n) with false
      by (symmetry; apply Z.ltb_ge; lia).
    replace (Z.of_nat (memory s) <? n) with false
      by (symmetry; apply Z.ltb_ge; lia).
    reflexivity.
Qed.

(** A read returns, waits for ever or raises, and raises without a trace. *)
Lemma rfile_read_cases (n : Z) (s : State) :
  read_returns n s = true
  \/ read_waits n s = true
  \/ exists e, rfile_read n s = (Raise e, s).
Proof.
  unfold read_returns, read_waits, rfile_read.
  destruct ((n <? - PY_SSIZE_T_MAX - 1) || (PY_SSIZE_T_MAX <? n)) eqn:E0;
    [right; right; eexists; reflexivity|].
  apply orb_false_iff in E0. destruct E0 as [E0 E0'].
  apply Z.ltb_ge in E0, E0'.
  destruct (n <? -1) eqn:E1; [right; right; eexists; reflexivity|].
  apply Z.ltb_ge in E1.
  destruct (n =? -1) eqn:E2.
  { destruct (eof s); [left | right; left]; reflexivity. }
  apply Z.eqb_neq in E2.
  replace (0 <=? n) with true by (symmetry; apply Z.leb_le; lia).
  replace (n <=? PY_SSIZE_T_MAX) with true by (symmetry; apply Z.leb_le; lia).
  destruct (n <=? Z.of_nat (List.length (rfile s))) eqn:E3;
    [left; reflexivity|].
  apply Z.leb_gt in E3.
  replace (Z.of_nat (List.length (rfile s)) <? n) with true
    by (symmetry; apply Z.ltb_lt; lia).
  destruct (PY_SSIZE_T_MAX - PyBytesObject_SIZE <? n) eqn:E4;
    [right; right; eexists; reflexivity|].
  apply Z.ltb_ge in E4.
  replace (n <=? PY_SSIZE_T_MAX - PyBytesObject_SIZE) with true
    by (symmetry; apply Z.leb_le; lia).
  destruct (Z.of_nat (memory s) <? n) eqn:E5;
    [right; right; eexists; reflexivity|].
  apply Z.ltb_ge in E5.
  replace (n <=? Z.of_nat (memory s)) with true
    by (symmetry; apply Z.leb_le; lia).
  destruct (eof s); [left | right; left]; reflexivity.
Qed.

(** Bytes that have arrived are read whatever the peer and the allocator
    do. *)
Lemma read_returns_present (n : Z) (s : State) :
  0 <= n <= PY_SSIZE_T_MAX ->
  n <= Z.of_nat (List.length (rfile s)) ->
  read_returns n s = true.
Proof.
  intros H1 H2. unfold read_returns.
  replace (n =? -1) with false by (symmetry; apply Z.eqb_neq; lia).
  replace (0 <=? n) with true by (symmetry; apply Z.leb_le; lia).
  replace (n <=? PY_SSIZE_T_MAX) with true by (symmetry; apply Z.leb_le; lia).
  replace (n <=? Z.of_nat (List.length (rfile s))) with true
    by (symmetry; apply Z.leb_le; lia).
  reflexivity.
Qed.

Lemma rfile_read_raises (n : Z) (s : State) :
  n < -1 \/ PY_SSIZE_T_MAX < n ->
  exists e, rfile_read n s = (Raise e, s).
Proof.
  intros H. unfold rfile_read.
  destruct ((n <? - PY_SSIZE_T_MAX - 1) || (PY_SSIZE_T_MAX <? n)) eqn:E1;
    [eexists; reflexivity|].
  apply orb_false_iff in E1. destruct E1 as [_ E1]. apply Z.ltb_ge in E1.
  destruct (n <? -1) eqn:E2; [eexists; reflexivity|].
  apply Z.ltb_ge in E2. lia.
Qed.

Lemma do_POST_ok (endpoint : string) (self : Request) (s : State) (n : Z) :
  path self = endpoint ->
  int (get (headers self) "Content-Length" (PyInt 0)) = Ok n ->
  read_returns n s = true ->
  may_open (fs s) = true ->
  (List.length (newline_terminated (read_data n (rfile s)))
   <= free_space (fs s))%nat ->
  do_POST endpoint self s
  = (Ok tt,
     mkState (appended (read_data n (rfile s)) (fs s))
             (read_rest n (rfile s))
             (wfile s ++ [SendResponse 204; EndHeaders])
             (eof s) (memory s)
             (history s
                ++ map FileOp (stored_ops (read_data n (rfile s)))
                ++ [Sent (SendResponse 204); Sent EndHeaders])).
Proof.
  intros Hp Hi Hn Ho Hf. enter_endpoint Hp Hi.
  rewrite (rfile_read_ok n s Hn).
  set (data := read_data n (rfile s)) in *.
  rewrite newline_terminated_endswith, length_app in Hf.
  unfold appended, stored_ops. rewrite newline_terminated_endswith.
  fold data. run_file_ops. rewrite Ho.
  cbn [fs rfile wfile eof memory history log_file may_open free_space fs_log
       fst snd].
  assert (H1 : (List.length data <=? free_space (fs s))%nat = true)
    by (apply Nat.leb_le; lia).
  rewrite H1.
  cbn [fs rfile wfile eof memory history log_file may_open free_space fs_log
       fst snd].
  destruct (endswith data [NL]) eqn:E; cbn [negb].
  - cbn [fs rfile wfile eof memory history log_file may_open free_space
         fs_log fst snd List.length map app].
    rewrite !app_nil_r, <- !app_assoc. reflexivity.
  - cbn [List.length] in Hf.
    assert (H2 : (1 <=? free_space (fs s) - List.length data)%nat = true)
      by (apply Nat.leb_le; lia).
    cbn [fs rfile wfile eof memory history log_file may_open free_space
         fs_log fst snd List.length].
    rewrite H2.
    cbn [fs rfile wfile eof memory history log_file may_open free_space
         fs_log fst snd List.length map app].
    rewrite <- !app_assoc, length_app. cbn [app List.length].
    replace (free_space (fs s) - List.length data - 1)%nat
      with (free_space (fs s) - (List.length data + 1))%nat by lia.
    reflexivity.
Qed.

Lemma do_POST_open_refused (endpoint : string) (self : Request) (s : State)
  (n : Z) :
  path self = endpoint ->
  int (get (headers self) "Content-Length" (PyInt 0)) = Ok n ->
  read_returns n s = true ->
  may_open (fs s) = false ->
  do_POST endpoint self s
  = (Raise OSError,
     mkState (refused (fs s)) (read_rest n (rfile s)) (wfile s)
             (eof s) (memory s) (history s ++ [FileOp OpenFailed])).
Proof.
  intros Hp Hi Hn Ho. enter_endpoint Hp Hi.
  rewrite (rfile_read_ok n s Hn).
  unfold bind, with_open_ab, open_ab, set_rfile, set_fs, note, refused.
  cbn [fs rfile wfile eof memory history]. rewrite Ho. reflexivity.
Qed.

Lemma do_POST_disk_full (endpoint : string) (self : Request) (s : State)
  (n : Z) :
  path self = endpoint ->
  int (get (headers self) "Content-Length" (PyInt 0)) = Ok n ->
  read_returns n s = true ->
  may_open (fs s) = true ->
  (free_space (fs s)
   < List.length (newline_terminated (read_data n (rfile s))))%nat ->
  do_POST endpoint self s
  = (Raise OSError,
     mkState (truncated (read_data n (rfile s)) (fs s))
             (read_rest n (rfile s)) (wfile s) (eof s) (memory s)
             (history s
                ++ map FileOp
                     (truncated_ops (read_data n (rfile s))
                                    (free_space (fs s))))).
Proof.
  intros Hp Hi Hn Ho Hf. enter_endpoint Hp Hi.
  rewrite (rfile_read_ok n s Hn).
  set (data := read_data n (rfile s)) in *.
  unfold truncated, truncated_ops. rewrite newline_terminated_endswith in *.
  rewrite length_app in Hf. rewrite firstn_app.
  run_file_ops. rewrite Ho.
  cbn [fs rfile wfile eof memory history log_file may_open free_space fs_log
       fst snd].
  destruct (List.length data <=? free_space (fs s))%nat eqn:E1.
  - apply Nat.leb_le in E1.
    cbn [fs rfile wfile eof memory history log_file may_open free_space
         fs_log fst snd].
    destruct (endswith data [NL]) eqn:E; cbn [negb List.length] in *;
      [exfalso; lia|].
    assert (H2 : (1 <=? free_space (fs s) - List.length data)%nat = false)
      by (apply Nat.leb_gt; lia).
    cbn [fs rfile wfile eof memory history log_file may_open free_space
         fs_log fst snd List.length].
    rewrite H2.
    cbn [fs rfile wfile eof memory history log_file may_open free_space
         fs_log fst snd map app].
    replace (free_space (fs s) - List.length data)%nat with 0%nat by lia.
    rewrite firstn_all2 with (l := data) by lia.
    rewrite <- !app_assoc. reflexivity.
  - apply Nat.leb_gt in E1.
    cbn [fs rfile wfile eof memory history log_file may_open free_space
         fs_log fst snd map app].
    replace (free_space (fs s) - List.length data)%nat with 0%nat by lia.
    rewrite firstn_O, app_nil_r, <- !app_assoc. reflexivity.
Qed.

Lemma do_POST_read_raises (endpoint : string) (self : Request) (s : State)
  (n : Z) (e : exn) :
  path self = endpoint ->
  int (get (headers self) "Content-Length" (PyInt 0)) = Ok n ->
  rfile_read n s = (Raise e, s) ->
  do_POST endpoint self s = (Raise e, s).
Proof.
  intros Hp Hi He. enter_endpoint Hp Hi. rewrite He. reflexivity.
Qed.

Lemma do_POST_waits (endpoint : string) (self : Request) (s : State)
  (n : Z) :
  path self = endpoint ->
  int (get (headers self) "Content-Length" (PyInt 0)) = Ok n ->
  read_waits n s = true ->
  do_POST endpoint self s = (Blocked, s).
Proof.
  intros Hp Hi Hw. enter_endpoint Hp Hi.
  rewrite (rfile_read_waits n s Hw). reflexivity.
Qed.

Lemma do_POST_outcome (endpoint : string) (self : Request) (s : State) :
  outcome endpoint self s (do_POST endpoint self s).
Proof.
  destruct (string_dec (path self) endpoint) as [Hp|Hp].
  2:{ rewrite do_POST_mismatch by exact Hp. now constructor. }
  destruct (int (get (headers self) "Content-Length" (PyInt 0)))
    as [n|e|] eqn:Hi.
  2:{ rewrite (do_POST_int_raises _ _ _ e Hp Hi). now apply BadLength. }
  2:{ exfalso. unfold int in Hi.
      destruct (get (headers self) "Content-Length" (PyInt 0));
        [destruct (int_of_str s0)| |]; discriminate. }
  destruct (rfile_read_cases n s) as [Hn|[Hw|[e He]]].
  - destruct (may_open (fs s)) eqn:Ho.
    2:{ rewrite (do_POST_open_refused _ _ _ n Hp Hi Hn Ho).
        now apply OpenRefused. }
    destruct (le_lt_dec
                (List.length (newline_terminated (read_data n (rfile s))))
                (free_space (fs s))) as [Hf|Hf].
    + rewrite (do_POST_ok _ _ _ n Hp Hi Hn Ho Hf). now apply Stored.
    + rewrite (do_POST_disk_full _ _ _ n Hp Hi Hn Ho Hf). now apply DiskFull.
  - rewrite (do_POST_waits _ _ _ n Hp Hi Hw). now apply (Waits _ _ _ n).
  - rewrite (do_POST_read_raises _ _ _ n e Hp Hi He).
    now apply (BadRead _ _ _ n e).
Qed.

Lemma read_data_exact (B rest : bytes) :
  read_data (Z.of_nat (List.length B)) (B ++ rest) = B.
Proof.
  unfold read_data.
  replace (Z.of_nat (List.length B) =? -1) with false
    by (symmetry; apply Z.eqb_neq; lia).
  rewrite Nat2Z.id, firstn_app, firstn_all, Nat.sub_diag, firstn_O.
  apply app_nil_r.
Qed.

Lemma read_rest_exact (B rest : bytes) :
  read_rest (Z.of_nat (List.length B)) (B ++ rest) = rest.
Proof.
  unfold read_rest.
  replace (Z.of_nat (List.length B) =? -1) with false
    by (symmetry; apply Z.eqb_neq; lia).
  rewrite Nat2Z.id, skipn_app, skipn_all, Nat.sub_diag. reflexivity.
Qed.

Lemma get_absent (hs : Headers) (name : string) (failobj : pyval) :
  has_header hs name = false -> get hs name failobj = failobj.
Proof.
  induction hs as [|[k v] hs IH]; cbn; [reflexivity|].
  intros H. apply orb_false_iff in H. destruct H as [H1 H2].
  rewrite H1. now apply IH.
Qed.

Lemma posts_stored (endpoint : string) (self : Request) (s : State)
  (B : bytes) :
  posts endpoint self (rfile s) B ->
  writable (fs s) (List.length (newline_terminated B)) ->
  exists rest,
    rfile s = B ++ rest /\
    do_POST endpoint self s
    = (Ok tt,
       mkState (appended B (fs s)) rest
               (wfile s ++ [SendResponse 204; EndHeaders])
               (eof s) (memory s)
               (history s
                  ++ map FileOp (stored_ops B)
                  ++ [Sent (SendResponse 204); Sent EndHeaders])).
Proof.
  intros (Hp & Hi & Hm & rest & Hr) (Ho & Hf).
  exists rest. split; [exact Hr|].
  assert (Hn : read_returns (Z.of_nat (List.length B)) s = true).
  { apply read_returns_present; [lia|].
    rewrite Hr, length_app. lia. }
  pose proof (do_POST_ok endpoint self s _ Hp Hi Hn) as H.
  rewrite Hr, read_data_exact, read_rest_exact in H.
  apply H; [exact Ho | exact Hf].
Qed.

(** ** The claims about one request *)

(** C1: a body [B] POSTed to the configured endpoint is appended to the log
    file unaltered, followed by exactly one newline byte when [B] does not
    end with one and by nothing when it does; the handler returns, and has
    read [B] and no more from the connection. *)
Theorem post_appends_body_with_one_newline :
  forall (endpoint : string) (self : Request) (s : State) (B : bytes),
    posts endpoint self (rfile s) B ->
    writable (fs s) (List.length (newline_terminated B)) ->
    exists s',
      do_POST endpoint self s = (Ok tt, s') /\
      rfile s = B ++ rfile s' /\
      ((exists d, B = d ++ [NL]) ->
       log_file (fs s') = Some (contents (fs s) ++ B)) /\
      (~ (exists d, B = d ++ [NL]) ->
       log_file (fs s') = Some (contents (fs s) ++ B ++ [NL])).
Proof.
  intros endpoint self s B Hposts Hw.
  destruct (posts_stored endpoint self s B Hposts Hw) as (rest & Hr & Hrun).
  eexists. split; [exact Hrun|]. cbn [rfile fs appended log_file].
  split; [exact Hr|].
  rewrite newline_terminated_endswith. split; intros H.
  - apply endswith_NL_iff in H. rewrite H. now rewrite app_nil_r.
  - destruct (endswith B [NL]) eqn:E; [|reflexivity].
    apply endswith_NL_iff in E. contradiction.
Qed.

(** C2: a POST to a path other than the configured endpoint is answered
    with status 404 and no body, and no file operation takes place: the file
    system, log file included, is what it was. *)
Theorem post_to_other_path_is_404 :
  forall (endpoint : string) (self : Request) (s : State),
    path self <> endpoint ->
    not_found s (do_POST endpoint self s) /\
    statuses [SendResponse 404; EndHeaders] = [404] /\
    response_body [SendResponse 404; EndHeaders] = [] /\
    log_file (fs (snd (do_POST endpoint self s))) = log_file (fs s) /\
    fs_log (fs (snd (do_POST endpoint self s))) = fs_log (fs s).
Proof.
  intros endpoint self s H. rewrite (do_POST_mismatch _ _ _ H).
  unfold not_found, emit. cbn [fst snd wfile fs rfile].
  rewrite <- app_assoc. repeat split; reflexivity.
Qed.


(** C9: when the [Content-Length] of a POST to the configured endpoint is
    not what [int] accepts, [int] raises [ValueError] out of the handler
    before anything else happens: no byte of the body is read, the file
    system is untouched and nothing is sent, neither 204 nor 404. *)
Theorem post_with_invalid_content_length_raises :
  forall (endpoint : string) (self : Request) (s : State) (v : string),
    path self = endpoint ->
    get (headers self) "Content-Length" (PyInt 0) = PyStr v ->
    int_of_str v = None ->
    do_POST endpoint self s = (Raise ValueError, s) /\
    rfile (snd (do_POST endpoint self s)) = rfile s /\
    fs (snd (do_POST endpoint self s)) = fs s /\
    wfile (snd (do_POST endpoint self s)) = wfile s.
Proof.
  intros endpoint self s v Hp Hg Hv.
  assert (H : do_POST endpoint self s = (Raise ValueError, s)).
  { apply do_POST_int_raises; [exact Hp|]. rewrite Hg. cbn. now rewrite Hv. }
  rewrite H. repeat split; reflexivity.
Qed.

(** C5: on a POST to the configured endpoint the handler reads exactly
    [Content-Length] bytes of the body and appends their record; without the
    header it reads none; and a POST whose [Content-Length] is [0] is
    answered with 204 while the log file gains exactly one newline byte. *)
Theorem post_reads_content_length_bytes :
  forall (endpoint : string) (self : Request) (s : State),
    path self = endpoint ->
    (forall (v : string) (n : nat),
        get (headers self) "Content-Length" (PyInt 0) = PyStr v ->
        int_of_str v = Some (Z.of_nat n) ->
        (n <= List.length (rfile s))%nat ->
        Z.of_nat n <= PY_SSIZE_T_MAX ->
        writable (fs s)
          (List.length (newline_terminated (firstn n (rfile s)))) ->
        exists s',
          do_POST endpoint self s = (Ok tt, s') /\
          rfile s = firstn n (rfile s) ++ rfile s' /\
          List.length (firstn n (rfile s)) = n /\
          contents (fs s')
          = contents (fs s) ++ newline_terminated (firstn n (rfile s)))
    /\
    (has_header (headers self) "Content-Length" = false ->
     writable (fs s) 1 ->
     exists s',
       do_POST endpoint self s = (Ok tt, s') /\
       rfile s' = rfile s /\
       contents (fs s') = contents (fs s) ++ [NL])
    /\
    (forall v : string,
        get (headers self) "Content-Length" (PyInt 0) = PyStr v ->
        int_of_str v = Some 0 ->
        writable (fs s) 1 ->
        exists s',
          do_POST endpoint self s = (Ok tt, s') /\
          wfile s' = wfile s ++ [SendResponse 204; EndHeaders] /\
          rfile s' = rfile s /\
          contents (fs s') = contents (fs s) ++ [NL]).
Proof.
  intros endpoint self s Hp.
  assert (Hzero :
            int (get (headers self) "Content-Length" (PyInt 0)) = Ok 0 ->
            writable (fs s) 1 ->
            do_POST endpoint self s
            = (Ok tt,
               mkState (appended [] (fs s)) (rfile s)
                       (wfile s ++ [SendResponse 204; EndHeaders])
                       (eof s) (memory s)
                       (history s
                          ++ map FileOp (stored_ops [])
                          ++ [Sent (SendResponse 204); Sent EndHeaders]))).
  { intros Hi (Ho & Hf).
    assert (Hn : read_returns 0 s = true)
      by (apply read_returns_present; unfold PY_SSIZE_T_MAX; lia).
    pose proof (do_POST_ok endpoint self s 0 Hp Hi Hn) as H.
    cbn [read_data read_rest Z.eqb Z.to_nat firstn skipn] in H.
    apply H; [exact Ho | exact Hf]. }
  split; [|split].
  - intros v n Hg Hv Hlen Hmax (Ho & Hf).
    assert (Hi : int (get (headers self) "Content-Length" (PyInt 0))
                 = Ok (Z.of_nat n)).
    { rewrite Hg. cbn. now rewrite Hv. }
    assert (Hn : read_returns (Z.of_nat n) s = true)
      by (apply read_returns_present; lia).
    pose proof (do_POST_ok endpoint self s (Z.of_nat n) Hp Hi Hn) as H.
    unfold read_data, read_rest in H.
    replace (Z.of_nat n =? -1) with false in H
      by (symmetry; apply Z.eqb_neq; lia).
    rewrite Nat2Z.id in H.
    eexists. split; [apply H; [exact Ho | exact Hf]|].
    cbn [rfile fs appended contents log_file].
    split; [symmetry; apply firstn_skipn|].
    split; [apply firstn_length_le; exact Hlen | reflexivity].
  - intros Habs Hw.
    assert (Hi : int (get (headers self) "Content-Length" (PyInt 0)) = Ok 0).
    { rewrite (get_absent _ _ _ Habs). reflexivity. }
    eexists. split; [exact (Hzero Hi Hw)|].
    split; reflexivity.
  - intros v Hg Hv Hw.
    assert (Hi : int (get (headers self) "Content-Length" (PyInt 0)) = Ok 0).
    { rewrite Hg. cbn. now rewrite Hv. }
    eexists. split; [exact (Hzero Hi Hw)|].
    repeat split; reflexivity.
Qed.

Lemma written_app (a b : list fs_event) :
  written (a ++ b) = written a ++ written b.
Proof.
  induction a as [|e a IH]; [reflexivity|].
  destruct e; cbn; rewrite IH; try reflexivity. now rewrite app_assoc.
Qed.

(** C6: the log file is append-only.  Whatever the request and whatever the
    state of the disk, the operations of the handler on the file are opens
    for appending, writes and closes (there is no read among [fs_event]);
    the contents before the request are a prefix of the contents after it,
    the rest being the bytes written; a file that exists still exists; and
    once [open] has succeeded the file exists, created if it was absent. *)
Theorem log_file_is_append_only :
  forall (endpoint : string) (self : Request) (s : State),
  exists evs : list fs_event,
    fs_log (fs (snd (do_POST endpoint self s))) = fs_log (fs s) ++ evs /\
    contents (fs (snd (do_POST endpoint self s)))
    = contents (fs s) ++ written evs /\
    (log_file (fs s) <> None ->
     log_file (fs (snd (do_POST endpoint self s))) <> None) /\
    (In OpenAppend evs ->
     log_file (fs (snd (do_POST endpoint self s))) <> None).
Proof.
  intros endpoint self s.
  destruct (do_POST_outcome endpoint self s)
    as [Hp | e Hp Hi | n e Hp Hi Hn | n Hp Hi Hw | n Hp Hi Hn Ho
        | n Hp Hi Hn Ho Hf | n Hp Hi Hn Ho Hf]; cbn [snd fs emit].
  - exists []. rewrite !app_nil_r. repeat split; tauto.
  - exists []. rewrite !app_nil_r. repeat split; tauto.
  - exists []. rewrite !app_nil_r. repeat split; tauto.
  - exists []. rewrite !app_nil_r. repeat split; tauto.
  - exists [OpenFailed]. unfold refused, log_fs, contents.
    cbn [fs_log log_file written]. rewrite app_nil_r.
    repeat split; try tauto.
    intros [H|[]]; discriminate.
  - eexists. unfold truncated, contents at 1. cbn [fs_log log_file].
    split; [reflexivity|].
    split; [|split; intros _; discriminate].
    f_equal. rewrite !written_app.
    set (data := read_data n (rfile s)) in *.
    rewrite newline_terminated_endswith in *.
    rewrite length_app in Hf. rewrite firstn_app.
    destruct (List.length data <=? free_space (fs s))%nat eqn:E.
    + apply Nat.leb_le in E. cbn [written app].
      rewrite firstn_all2 by exact E.
      replace (free_space (fs s) - List.length data)%nat with 0%nat.
      * rewrite firstn_O, !app_nil_r. reflexivity.
      * destruct (endswith data [NL]); cbn [List.length] in Hf; lia.
    + apply Nat.leb_gt in E. cbn [written app].
      replace (free_space (fs s) - List.length data)%nat with 0%nat by lia.
      rewrite firstn_O, !app_nil_r. reflexivity.
  - eexists. unfold appended, contents at 1. cbn [fs_log log_file].
    split; [reflexivity|].
    split; [|split; intros _; discriminate].
    f_equal. rewrite newline_terminated_endswith.
    destruct (endswith (read_data n (rfile s)) [NL]); cbn [written app];
      now rewrite ?app_nil_r.
Qed.

(** C7: the handler catches nothing.  When [open] or a write on the log
    file fails during a POST, which then is one to the configured endpoint,
    [OSError] leaves [do_POST] and nothing is sent, so no 204; and once the
    body is read, [open] does fail when the file may not be opened, a write
    when the record does not fit. *)
Theorem file_errors_propagate :
  forall (endpoint : string) (self : Request) (s : State),
    (forall evs : list fs_event,
        fs_log (fs (snd (do_POST endpoint self s))) = fs_log (fs s) ++ evs ->
        In OpenFailed evs \/ In WriteFailed evs ->
        path self = endpoint /\
        fst (do_POST endpoint self s) = Raise OSError /\
        wfile (snd (do_POST endpoint self s)) = wfile s)
    /\
    (forall n : Z,
        path self = endpoint ->
        int (get (headers self) "Content-Length" (PyInt 0)) = Ok n ->
        read_returns n s = true ->
        may_open (fs s) = false
        \/ (free_space (fs s)
            < List.length (newline_terminated (read_data n (rfile s))))%nat ->
        fst (do_POST endpoint self s) = Raise OSError /\
        wfile (snd (do_POST endpoint self s)) = wfile s /\
        exists evs : list fs_event,
          fs_log (fs (snd (do_POST endpoint self s))) = fs_log (fs s) ++ evs /\
          (In OpenFailed evs \/ In WriteFailed evs)).
Proof.
  intros endpoint self s. split.
  - intros evs Hlog Hin.
    destruct (do_POST_outcome endpoint self s)
      as [Hp | e Hp Hi | n e Hp Hi Hn | n Hp Hi Hw | n Hp Hi Hn Ho
          | n Hp Hi Hn Ho Hf | n Hp Hi Hn Ho Hf]; cbn [fst snd fs emit wfile] in *.
    + rewrite <- (app_nil_r (fs_log (fs s))) in Hlog at 1.
      apply app_inv_head in Hlog. subst evs. cbn in Hin. tauto.
    + rewrite <- (app_nil_r (fs_log (fs s))) in Hlog at 1.
      apply app_inv_head in Hlog. subst evs. cbn in Hin. tauto.
    + rewrite <- (app_nil_r (fs_log (fs s))) in Hlog at 1.
      apply app_inv_head in Hlog. subst evs. cbn in Hin. tauto.
    + rewrite <- (app_nil_r (fs_log (fs s))) in Hlog at 1.
      apply app_inv_head in Hlog. subst evs. cbn in Hin. tauto.
    + repeat split; assumption || reflexivity.
    + repeat split; assumption || reflexivity.
    + exfalso. unfold appended in Hlog. cbn [fs_log] in Hlog.
      apply app_inv_head in Hlog. subst evs.
      destruct (endswith (read_data n (rfile s)) [NL]); cbn in Hin;
        intuition discriminate.
  - intros n Hp Hi Hn [Ho|Hf].
    + rewrite (do_POST_open_refused _ _ _ n Hp Hi Hn Ho).
      cbn [fst snd fs wfile].
      repeat split. exists [OpenFailed]. split; [reflexivity|].
      left. now left.
    + destruct (may_open (fs s)) eqn:Ho.
      * rewrite (do_POST_disk_full _ _ _ n Hp Hi Hn Ho Hf).
        cbn [fst snd fs wfile]. repeat split.
        unfold truncated. cbn [fs_log]. eexists. split; [reflexivity|].
        right. apply in_or_app. right. apply in_or_app. right. now left.
      * rewrite (do_POST_open_refused _ _ _ n Hp Hi Hn Ho).
        cbn [fst snd fs wfile].
        repeat split. exists [OpenFailed]. split; [reflexivity|].
        left. now left.
Qed.




(** ** Sequences of requests *)

Lemma serve_forever_cons (h : Handler) (c : Connection)
  (conns : list Connection) (f : FileSystem) :
  fst (handler_do_POST h (conn_request c) (handler_state f c)) <> Blocked ->
  serve_forever h (c :: conns) f
  = let rs := handler_do_POST h (conn_request c) (handler_state f c)
    in (((fst rs, wfile (snd rs))
         :: fst (serve_forever h conns (fs (snd rs)))),
        snd (serve_forever h conns (fs (snd rs)))).
Proof.
  cbn [serve_forever].
  destruct (handler_do_POST h (conn_request c) (handler_state f c))
    as [r s].
  cbn [fst snd]. intros Hr.
  destruct r as [u|e|]; [| |contradiction];
    now destruct (serve_forever h conns (fs s)).
Qed.

Lemma serve_forever_blocked (h : Handler) (c : Connection)
  (conns : list Connection) (f : FileSystem) :
  fst (handler_do_POST h (conn_request c) (handler_state f c)) = Blocked ->
  serve_forever h (c :: conns) f
  = ([(Blocked, wfile (snd (handler_do_POST h (conn_request c)
                              (handler_state f c))))],
     fs (snd (handler_do_POST h (conn_request c) (handler_state f c)))).
Proof.
  cbn [serve_forever].
  destruct (handler_do_POST h (conn_request c) (handler_state f c))
    as [r s].
  cbn [fst snd]. now intros ->.
Qed.

(** C3: appends are cumulative and keep the order of arrival.  After [N]
    bodies POSTed one after the other to the configured endpoint, each
    answered with 204, the log file holds what it held before followed by
    the [N] newline-terminated records in that order. *)
Theorem sequential_posts_accumulate :
  forall (N : nat) (endpoint : string) (conns : list Connection)
         (Bs : list bytes) (f : FileSystem),
    List.length Bs = N ->
    Forall2 (fun c B => posts endpoint (conn_request c) (conn_stream c) B)
            conns Bs ->
    writable f (List.length (List.concat (map newline_terminated Bs))) ->
    contents (snd (serve_forever (make_handler endpoint) conns f))
    = contents f ++ List.concat (map newline_terminated Bs)
    /\
    fst (serve_forever (make_handler endpoint) conns f)
    = List.repeat (Ok tt, [SendResponse 204; EndHeaders]) N.
Proof.
  intros N endpoint conns Bs f HN HF. subst N. revert f.
  induction HF as [|c B conns Bs Hposts HF IH]; intros f (Ho & Hf).
  - cbn. now rewrite app_nil_r.
  - cbn [map List.concat] in Hf. rewrite length_app in Hf.
    destruct (posts_stored endpoint (conn_request c)
                (handler_state f c) B) as (rest & _ & Hrun).
    + exact Hposts.
    + split; [exact Ho | cbn [fs handler_state]; lia].
    + rewrite serve_forever_cons
        by (cbn [make_handler handler_do_POST]; rewrite Hrun; discriminate).
      cbn [make_handler handler_do_POST].
      cbn [fs wfile handler_state] in Hrun.
      cbn zeta. cbn [handler_state]. rewrite Hrun.
      cbn [fst snd fs wfile app].
      destruct (IH (appended B f)) as [IHc IHr].
      { split; [exact Ho | cbn [appended free_space]; lia]. }
      cbn [make_handler] in IHc, IHr. rewrite IHc, IHr.
      unfold appended at 1. cbn [contents log_file map List.concat List.length List.repeat].
      rewrite <- app_assoc. split; reflexivity.
Qed.

(** ** The command line *)

Lemma getattr_setattr_other (ns : Namespace) (d d0 : string) (v : pyval) :
  d <> d0 -> getattr (setattr ns d v) d0 = getattr ns d0.
Proof.
  intros Hd. induction ns as [|[k w] ns IH]; cbn.
  - apply String.eqb_neq in Hd. now rewrite Hd.
  - destruct (String.eqb k d) eqn:E; cbn.
    + apply String.eqb_eq in E. subst k.
      apply String.eqb_neq in Hd. now rewrite Hd.
    + destruct (String.eqb k d0); [reflexivity | exact IH].
Qed.

Lemma option_action_in (p : ArgumentParser) (s : string) (a : Action) :
  option_action p s = Some a -> In (s, a) p.
Proof.
  induction p as [|[k b] p IH]; cbn; [discriminate|].
  destruct (String.eqb k s) eqn:E.
  - apply String.eqb_eq in E. intros [= ->]. subst. now left.
  - intros H. right. now apply IH.
Qed.

Lemma get_option_tuples_in (p : ArgumentParser) (s : string)
  (a : Action) (opt : string) (e : option string) :
  In (Some a, opt, e) (get_option_tuples p s) -> In (opt, a) p.
Proof.
  unfold get_option_tuples.
  destruct s as [|c0 [|c1 rest]]; try (intros []).
  assert (G : forall (g : string * Action -> list option_tuple),
             (forall ka t, In t (g ka) ->
                           fst (fst t) = Some (snd ka) /\ snd (fst t) = fst ka) ->
             In (Some a, opt, e) (flat_map g p) -> In (opt, a) p).
  { intros g Hg Hin. apply in_flat_map in Hin.
    destruct Hin as ([k b] & Hk & Ht).
    destruct (Hg _ _ Ht) as [H1 H2]. cbn in H1, H2.
    injection H1 as ->. subst. exact Hk. }
  destruct (Ascii.eqb c1 "-") eqn:E1.
  - apply Ascii.eqb_eq in E1. subst c1.
    destruct (split_eq (String c0 (String "-" rest))) as [[l r]|];
      apply G; intros ka t;
      (destruct (String.prefix _ (fst ka)); [|intros []]);
      (intros [<-|[]]; now split).
  - assert (Hshape :
              In (Some a, opt, e)
                 (flat_map
                    (fun ka : string * Action =>
                       if String.eqb (fst ka) (String c0 (String c1 ""))
                       then [(Some (snd ka), fst ka, Some rest)]
                       else if String.prefix (String c0 (String c1 rest)) (fst ka)
                            then [(Some (snd ka), fst ka, None)] else [])
                    p) -> In (opt, a) p).
    { apply G. intros ka t.
      destruct (String.eqb (fst ka) _); [intros [<-|[]]; now split|].
      destruct (String.prefix _ (fst ka)); [|intros []].
      intros [<-|[]]; now split. }
    intros Hin. apply Hshape.
    destruct c1 as [[] [] [] [] [] [] [] []]; try exact Hin; discriminate.
Qed.

Lemma parse_optional_in (p : ArgumentParser) (s : string)
  (a : Action) (opt : string) (e : option string) :
  parse_optional p s = Ok (Some (Some a, opt, e)) -> In (opt, a) p.
Proof.
  unfold parse_optional. destruct s as [|c rest]; [discriminate|].
  destruct (negb (Ascii.eqb c "-")); [discriminate|].
  destruct (option_action p (String c rest)) as [b|] eqn:Ea.
  { intros H. injection H as Ha Hopt He. subst a opt.
    now apply option_action_in. }
  destruct rest as [|c1 rest]; [discriminate|].
  destruct (split_eq (String c (String c1 rest))) as [[l r]|].
  - destruct (option_action p l) as [b|] eqn:El.
    + intros H. injection H as Ha Hopt He. subst a opt.
      now apply option_action_in.
    + destruct (get_option_tuples p (String c (String c1 rest)))
        as [|t [|t' ts]] eqn:Et; try discriminate.
      * destruct (negative_number _); [discriminate|].
        destruct (contains_char _ _); discriminate.
      * intros [= ->]. eapply get_option_tuples_in.
        rewrite Et. now left.
  - destruct (get_option_tuples p (String c (String c1 rest)))
      as [|t [|t' ts]] eqn:Et; try discriminate.
    + destruct (negative_number _); [discriminate|].
      destruct (contains_char _ _); discriminate.
    + intros [= ->]. eapply get_option_tuples_in.
      rewrite Et. now left.
Qed.

Lemma classify_tokens (p : ArgumentParser) (argv : list string) :
  forall (sep_seen : bool) (ts : list token) (t : option_tuple),
    classify p sep_seen argv = Ok ts ->
    In (TokO t) ts ->
    exists tok, In tok argv /\ parse_optional p tok = Ok (Some t).
Proof.
  induction argv as [|s argv IH]; intros sep_seen ts t; cbn [classify].
  - intros [= <-] [].
  - destruct sep_seen.
    + destruct (classify p true argv) as [ts'| |] eqn:E; [|discriminate..].
      intros [= <-] [H|H]; [discriminate|].
      destruct (IH _ _ _ E H) as (tok & Hin & Hp).
      exists tok. split; [now right | exact Hp].
    + destruct (String.eqb s "--").
      * destruct (classify p true argv) as [ts'| |] eqn:E; [|discriminate..].
        intros [= <-] [H|H]; [discriminate|].
        destruct (IH _ _ _ E H) as (tok & Hin & Hp).
        exists tok. split; [now right | exact Hp].
      * destruct (parse_optional p s) as [o| |] eqn:Eo; [|discriminate..].
        destruct (classify p false argv) as [ts'| |] eqn:E; [|discriminate..].
        intros [= <-] [H|H].
        -- destruct o as [t0|]; [|discriminate]. injection H as ->.
           exists s. split; [now left | exact Eo].
        -- destruct (IH _ _ _ E H) as (tok & Hin & Hp).
           exists tok. split; [now right | exact Hp].
Qed.

(** Consuming the tokens changes no attribute other than the [dest] of the
    options among them. *)
Lemma consume_keeps (d0 : string) :
  forall (n : nat) (ts : list token) (ns ns' : Namespace) (extras : bool),
    (List.length ts <= n)%nat ->
    (forall dest type d opt e,
        In (TokO (Some (StoreAction dest type d), opt, e)) ts -> dest <> d0) ->
    consume ts ns extras = Ok ns' ->
    getattr ns' d0 = getattr ns d0.
Proof.
  induction n as [|n IH]; intros ts ns ns' extras Hlen Hts.
  - destruct ts; [|cbn in Hlen; lia]. cbn.
    destruct extras; [discriminate|]. now intros [= ->].
  - destruct ts as [|t ts]; cbn [consume].
    { destruct extras; [discriminate|]. now intros [= ->]. }
    cbn [List.length] in Hlen.
    assert (Htail : forall dest type d opt e,
               In (TokO (Some (StoreAction dest type d), opt, e)) ts ->
               dest <> d0)
      by (intros; eapply Hts; right; eassumption).
    destruct t as [x | [[[[|dest type d]|] opt] [e|]] | ].
    + apply IH; [lia | exact Htail].
    + destruct (_ && _); discriminate.
    + discriminate.
    + assert (Hd : dest <> d0) by (eapply Hts; left; reflexivity).
      destruct (String.eqb e "--").
      * intros H. apply IH in H; [|lia|exact Htail].
        now rewrite H, getattr_setattr_other.
      * destruct (get_value type e) as [v| |]; [|discriminate..].
        intros H. apply IH in H; [|lia|exact Htail].
        now rewrite H, getattr_setattr_other.
    + assert (Hd : dest <> d0) by (eapply Hts; left; reflexivity).
      destruct ts as [|[x| |] ts'']; try discriminate.
      destruct (get_value type x) as [v| |]; [|discriminate..].
      intros H. apply IH in H.
      * now rewrite H, getattr_setattr_other.
      * cbn [List.length] in Hlen. lia.
      * intros; eapply Htail; right; eassumption.
    + apply IH; [lia | exact Htail].
    + apply IH; [lia | exact Htail].
    + apply IH; [lia | exact Htail].
Qed.

Lemma parser_options (opt : string) (a : Action) :
  In (opt, a) parser ->
  match a with
  | HelpAction => True
  | StoreAction dest _ _ => opt = ("--" ++ dest)%string
  end.
Proof.
  cbn. intros [H|[H|[H|[H|[H|[]]]]]]; injection H as <- <-; cbn; trivial.
Qed.

Lemma omitted_keeps (flag dest : string) (argv : list string)
  (args : Namespace) :
  flag = ("--" ++ dest)%string ->
  omitted flag argv = true ->
  parse_args parser argv = Ok args ->
  getattr args dest = getattr (defaults parser []) dest.
Proof.
  intros Hflag Hom. unfold parse_args.
  destruct (classify parser false argv) as [ts| |] eqn:Ec; [|discriminate..].
  apply (consume_keeps dest (List.length ts)); [lia|].
  intros dest' type d opt e Hin Heq. subst dest'.
  destruct (classify_tokens _ _ _ _ _ Ec Hin) as (tok & Htok & Hp).
  pose proof (parser_options _ _ (parse_optional_in _ _ _ _ _ Hp)) as Ho.
  cbn beta iota in Ho.
  unfold omitted in Hom. rewrite forallb_forall in Hom.
  specialize (Hom tok Htok). unfold selects in Hom. rewrite Hp in Hom.
  apply negb_true_iff, String.eqb_neq in Hom. congruence.
Qed.

(** C8: without arguments the configuration is host ['0.0.0.0'], port the
    integer [9000] and endpoint ['/logs']; and on any command line that
    [argparse] accepts, an option that is not given has that default. *)
Theorem omitted_flags_take_defaults :
  main_config []
  = Ok (mkConfig (PyStr "0.0.0.0") (PyInt 9000) (PyStr "/logs"))
  /\
  forall (argv : list string) (cfg : Config),
    main_config argv = Ok cfg ->
    (omitted "--host" argv = true -> host cfg = PyStr "0.0.0.0") /\
    (omitted "--port" argv = true -> port cfg = PyInt 9000) /\
    (omitted "--endpoint" argv = true -> endpoint cfg = PyStr "/logs").
Proof.
  split; [reflexivity|].
  intros argv cfg. unfold main_config.
  destruct (parse_args parser argv) as [args| |] eqn:Ea; [|discriminate..].
  destruct (getattr args "host") as [h|] eqn:Eh; [|discriminate].
  destruct (getattr args "port") as [p|] eqn:Ep; [|discriminate].
  destruct (getattr args "endpoint") as [e|] eqn:Ee; [|discriminate].
  intros [= <-]. cbn [host port endpoint].
  repeat split; intros Hom.
  - pose proof (omitted_keeps "--host" "host" argv args eq_refl Hom Ea) as H.
    rewrite Eh in H. cbn in H. congruence.
  - pose proof (omitted_keeps "--port" "port" argv args eq_refl Hom Ea) as H.
    rewrite Ep in H. cbn in H. congruence.
  - pose proof (omitted_keeps "--endpoint" "endpoint" argv args eq_refl
                  Hom Ea) as H.
    rewrite Ee in H. cbn in H. congruence.
Qed.

(** ** The scenarios of the specification *)

(** Scenario 1: [hello] POSTed to [/logs] is answered 204 and the file
    holds [hello\n]. *)
Example scenario_hello :
  do_POST "/logs" (post "/logs" "5") (arriving fresh_fs hello)
  = (Ok tt,
     mkState (mkFS (Some (hello ++ [NL])) true 4090
                   [OpenAppend; Wrote hello; Wrote [NL]; Close])
             [] [SendResponse 204; EndHeaders] false 4096
             [FileOp OpenAppend; FileOp (Wrote hello); FileOp (Wrote [NL]);
              FileOp Close; Sent (SendResponse 204); Sent EndHeaders]).
Proof. reflexivity. Qed.

(** Scenarios 2 and 3: [world\n] after [hello] gets no second newline, and
    a POST to [/other] gets 404 and leaves the file as it is. *)
Example scenario_world_then_other :
  let conns := [sends (post "/logs" "5") hello;
                sends (post "/logs" "6") world_nl;
                sends (post "/other" "1") [x78]] in
  let run := serve_forever (make_handler "/logs") conns fresh_fs in
  log_file (snd run) = Some (hello ++ [NL] ++ world_nl) /\
  map snd (fst run) = [[SendResponse 204; EndHeaders];
                       [SendResponse 204; EndHeaders];
                       [SendResponse 404; EndHeaders]].
Proof. split; reflexivity. Qed.

(** A [Content-Length] of [-1] makes [read] take the stream to its end
    once the peer has closed, and wait for ever while it has not; sizes
    that cannot be allocated are refused by [read]; and a record that does
    not fit the disk is cut short. *)
Example content_length_minus_one :
  fst (do_POST "/logs" (post "/logs" "-1") (arriving_closed fresh_fs hello))
  = Ok tt /\
  contents (fs (snd (do_POST "/logs" (post "/logs" "-1")
                       (arriving_closed fresh_fs hello))))
  = hello ++ [NL] /\
  do_POST "/logs" (post "/logs" "-1") (arriving fresh_fs hello)
  = (Blocked, arriving fresh_fs hello).
Proof. repeat split; reflexivity. Qed.

Example content_length_beyond_memory :
  do_POST "/logs" (post "/logs" "1000000000000") (arriving fresh_fs hello)
  = (Raise MemoryError, arriving fresh_fs hello) /\
  do_POST "/logs" (post "/logs" "9223372036854775807")
    (arriving fresh_fs hello)
  = (Raise OverflowError, arriving fresh_fs hello) /\
  do_POST "/logs" (post "/logs" "9223372036854775774")
    (arriving fresh_fs hello)
  = (Raise MemoryError, arriving fresh_fs hello).
Proof. repeat split; reflexivity. Qed.

Example content_length_too_large :
  do_POST "/logs" (post "/logs" "9223372036854775808")
    (arriving fresh_fs hello)
  = (Raise OverflowError, arriving fresh_fs hello).
Proof. reflexivity. Qed.

Example disk_full_cuts_record :
  do_POST "/logs" (post "/logs" "5") (arriving full_fs hello)
  = (Raise OSError,
     mkState (mkFS (Some (hello ++ firstn 3 hello)) true 0
                   [OpenAppend; Wrote (firstn 3 hello); WriteFailed; Close])
             [] [] false 4096
             [FileOp OpenAppend; FileOp (Wrote (firstn 3 hello));
              FileOp WriteFailed; FileOp Close]).
Proof. reflexivity. Qed.

(** ** Instances of the claims *)

Lemma post_appends_body_with_one_newline_witness :
  posts "/logs" (post "/logs" "5") hello hello /\
  writable fresh_fs (List.length (newline_terminated hello)) /\
  exists s',
    do_POST "/logs" (post "/logs" "5") (arriving fresh_fs hello)
    = (Ok tt, s') /\
    hello = hello ++ rfile s' /\
    ((exists d, hello = d ++ [NL]) ->
     log_file (fs s') = Some ([] ++ hello)) /\
    (~ (exists d, hello = d ++ [NL]) ->
     log_file (fs s') = Some ([] ++ hello ++ [NL])).
Proof.
  assert (Hposts : posts "/logs" (post "/logs" "5") hello hello).
  { unfold posts. split; [reflexivity|]. split; [reflexivity|].
    split; [vm_compute; discriminate|]. exists []. reflexivity. }
  assert (Hw : writable fresh_fs (List.length (newline_terminated hello))).
  { unfold writable. split; [reflexivity|]. vm_compute. lia. }
  split; [exact Hposts|]. split; [exact Hw|].
  exact (post_appends_body_with_one_newline
           "/logs" (post "/logs" "5") (arriving fresh_fs hello) hello
           Hposts Hw).
Defined.

Lemma post_to_other_path_is_404_witness :
  "/other"%string <> "/logs"%string /\
  not_found (arriving fresh_fs [x78])
    (do_POST "/logs" (post "/other" "1") (arriving fresh_fs [x78])) /\
  log_file (fs (snd (do_POST "/logs" (post "/other" "1")
                       (arriving fresh_fs [x78])))) = None.
Proof.
  assert (Hne : "/other"%string <> "/logs"%string) by discriminate.
  split; [exact Hne|].
  destruct (post_to_other_path_is_404
              "/logs" (post "/other" "1") (arriving fresh_fs [x78]) Hne)
    as (Hnf & _ & _ & Hfile & _).
  split; [exact Hnf | exact Hfile].
Defined.

Lemma sequential_posts_accumulate_witness :
  contents (snd (serve_forever (make_handler "/logs")
                   [sends (post "/logs" "5") hello;
                    sends (post "/logs" "6") world_nl]
                   fresh_fs))
  = contents fresh_fs
    ++ List.concat (map newline_terminated [hello; world_nl])
  /\
  fst (serve_forever (make_handler "/logs")
         [sends (post "/logs" "5") hello;
          sends (post "/logs" "6") world_nl]
         fresh_fs)
  = List.repeat (Ok tt, [SendResponse 204; EndHeaders]) 2.
Proof.
  apply (sequential_posts_accumulate 2 "/logs").
  - reflexivity.
  - constructor; [|constructor; [|constructor]].
    + unfold posts. split; [reflexivity|]. split; [reflexivity|].
      split; [vm_compute; discriminate|]. exists []. reflexivity.
    + unfold posts. split; [reflexivity|]. split; [reflexivity|].
      split; [vm_compute; discriminate|]. exists []. reflexivity.
  - unfold writable. split; [reflexivity|]. vm_compute. lia.
Defined.



Lemma post_with_invalid_content_length_raises_witness :
  path (post "/logs" "abc") = "/logs"%string /\
  get (headers (post "/logs" "abc")) "Content-Length" (PyInt 0) = PyStr "abc" /\
  int_of_str "abc" = None /\
  do_POST "/logs" (post "/logs" "abc") (arriving fresh_fs hello)
  = (Raise ValueError, arriving fresh_fs hello).
Proof.
  split; [reflexivity|]. split; [reflexivity|]. split; [reflexivity|].
  exact (proj1 (post_with_invalid_content_length_raises
                  "/logs" (post "/logs" "abc") (arriving fresh_fs hello)
                  "abc" eq_refl eq_refl eq_refl)).
Defined.

Lemma post_reads_content_length_bytes_witness :
  (exists s',
      do_POST "/logs" (post "/logs" "3") (arriving fresh_fs hello)
      = (Ok tt, s') /\
      hello = firstn 3 hello ++ rfile s' /\
      List.length (firstn 3 hello) = 3%nat /\
      contents (fs s') = [] ++ newline_terminated (firstn 3 hello))
  /\
  (exists s',
      do_POST "/logs" (post_bare "/logs") (arriving fresh_fs hello)
      = (Ok tt, s') /\
      rfile s' = hello /\
      contents (fs s') = [] ++ [NL])
  /\
  (exists s',
      do_POST "/logs" (post "/logs" "0") (arriving fresh_fs [])
      = (Ok tt, s') /\
      wfile s' = [] ++ [SendResponse 204; EndHeaders] /\
      rfile s' = [] /\
      contents (fs s') = [] ++ [NL]).
Proof.
  assert (Hw : forall n, (n <= 4096)%nat -> writable fresh_fs n).
  { intros n Hn. unfold writable. split; [reflexivity | exact Hn]. }
  split; [|split].
  - apply (proj1 (post_reads_content_length_bytes
                    "/logs" (post "/logs" "3") (arriving fresh_fs hello)
                    eq_refl) "3"%string 3%nat).
    + reflexivity.
    + reflexivity.
    + vm_compute. lia.
    + vm_compute. discriminate.
    + apply Hw. vm_compute. lia.
  - apply (proj1 (proj2 (post_reads_content_length_bytes
                           "/logs" (post_bare "/logs")
                           (arriving fresh_fs hello) eq_refl))).
    + reflexivity.
    + apply Hw. lia.
  - apply (proj2 (proj2 (post_reads_content_length_bytes
                           "/logs" (post "/logs" "0")
                           (arriving fresh_fs []) eq_refl)) "0"%string).
    + reflexivity.
    + reflexivity.
    + apply Hw. lia.
Defined.

Lemma log_file_is_append_only_witness :
  log_file fresh_fs = None /\
  log_file (fs (snd (do_POST "/logs" (post "/logs" "5")
                       (arriving fresh_fs hello)))) <> None.
Proof.
  split; [reflexivity|].
  destruct (log_file_is_append_only
              "/logs" (post "/logs" "5") (arriving fresh_fs hello))
    as (evs & Hlog & _ & _ & Hcreated).
  apply Hcreated. vm_compute in Hlog. rewrite <- Hlog. left. reflexivity.
Defined.

Lemma file_errors_propagate_witness :
  (fst (do_POST "/logs" (post "/logs" "5") (arriving readonly_fs hello))
   = Raise OSError /\
   wfile (snd (do_POST "/logs" (post "/logs" "5")
                 (arriving readonly_fs hello))) = [])
  /\
  (fst (do_POST "/logs" (post "/logs" "5") (arriving full_fs hello))
   = Raise OSError /\
   wfile (snd (do_POST "/logs" (post "/logs" "5")
                 (arriving full_fs hello))) = []).
Proof.
  split.
  - destruct (proj1 (file_errors_propagate
                       "/logs" (post "/logs" "5")
                       (arriving readonly_fs hello))
                    [OpenFailed] eq_refl (or_introl (or_introl eq_refl)))
      as (_ & Hr & Hw).
    split; [exact Hr | exact Hw].
  - assert (Hn : read_returns 5 (arriving full_fs hello) = true)
      by reflexivity.
    assert (Hfull : may_open (fs (arriving full_fs hello)) = false
                    \/ (free_space (fs (arriving full_fs hello))
                        < List.length
                            (newline_terminated
                               (read_data 5 (rfile (arriving full_fs hello)))))%nat).
    { right. vm_compute. lia. }
    destruct (proj2 (file_errors_propagate
                       "/logs" (post "/logs" "5") (arriving full_fs hello))
                    5 eq_refl eq_refl Hn Hfull)
      as (Hr & Hw & _).
    split; [exact Hr | exact Hw].
Defined.

Lemma omitted_flags_take_defaults_witness :
  main_config ["--port"; "8080"]%string
  = Ok (mkConfig (PyStr "0.0.0.0") (PyInt 8080) (PyStr "/logs")) /\
  omitted "--host" ["--port"; "8080"]%string = true /\
  omitted "--endpoint" ["--port"; "8080"]%string = true /\
  host (mkConfig (PyStr "0.0.0.0") (PyInt 8080) (PyStr "/logs"))
  = PyStr "0.0.0.0" /\
  endpoint (mkConfig (PyStr "0.0.0.0") (PyInt 8080) (PyStr "/logs"))
  = PyStr "/logs".
Proof.
  split; [reflexivity|]. split; [reflexivity|]. split; [reflexivity|].
  destruct (proj2 omitted_flags_take_defaults
              ["--port"; "8080"]%string
              (mkConfig (PyStr "0.0.0.0") (PyInt 8080) (PyStr "/logs"))
              eq_refl) as (Hh & _ & He).
  split; [exact (Hh eq_refl) | exact (He eq_refl)].
Defined.



(** * Further properties of the handler *)

Lemma read_data_rest (n : Z) (r : bytes) :
  r = read_data n r ++ read_rest n r.
Proof.
  unfold read_data, read_rest. destruct (n =? -1).
  - now rewrite app_nil_r.
  - symmetry. apply firstn_skipn.
Qed.

Lemma app_inv_nil {A : Type} (l evs : list A) : l = l ++ evs -> evs = [].
Proof.
  intros H. rewrite <- (app_nil_r l) in H at 1.
  apply app_inv_head in H. now symmetry.
Qed.

Lemma newline_terminated_ends (B : bytes) :
  exists d, newline_terminated B = d ++ [NL].
Proof.
  rewrite newline_terminated_endswith.
  destruct (endswith B [NL]) eqn:E.
  - apply endswith_NL_iff in E. destruct E as [d ->].
    exists d. now rewrite app_nil_r.
  - now exists B.
Qed.

(** X9: [data.endswith(suffix)] holds exactly when [data] is some bytes followed
    by [suffix]; every [data] ends with the empty suffix. *)
Theorem endswith_iff_suffix :
  forall data suffix : bytes,
    endswith data suffix = true <-> exists d, data = d ++ suffix.
Proof.
  intros data suffix. unfold endswith.
  rewrite andb_true_iff, bytes_eqb_eq, Nat.leb_le. split.
  - intros [_ Hs].
    exists (firstn (List.length data - List.length suffix) data).
    rewrite <- Hs at 2. symmetry. apply firstn_skipn.
  - intros [d ->]. rewrite length_app. split; [lia|].
    replace (List.length d + List.length suffix - List.length suffix)%nat
      with (List.length d + 0)%nat by lia.
    rewrite skipn_app, skipn_all2 by lia.
    replace (List.length d + 0 - List.length d)%nat with 0%nat by lia.
    reflexivity.
Qed.

(** X1: what the handler sends is one of three things: nothing, the 404 answer
    or the 204 answer.  It never sends a body and never two status lines. *)
Theorem handler_sends_at_most_one_bodyless_answer :
  forall (endpoint : string) (self : Request) (s : State),
  exists evs : list event,
    wfile (snd (do_POST endpoint self s)) = wfile s ++ evs /\
    (evs = [] \/ evs = [SendResponse 404; EndHeaders]
     \/ evs = [SendResponse 204; EndHeaders]) /\
    response_body evs = [] /\
    (List.length (statuses evs) <= 1)%nat.
Proof.
  intros endpoint self s.
  destruct (do_POST_outcome endpoint self s)
    as [Hp | e Hp Hi | n e Hp Hi Hn | n Hp Hi Hw | n Hp Hi Hn Ho
        | n Hp Hi Hn Ho Hf | n Hp Hi Hn Ho Hf]; cbn [snd wfile emit].
  - exists [SendResponse 404; EndHeaders]. rewrite <- app_assoc.
    cbn. repeat split; auto.
  - exists []. rewrite app_nil_r. cbn. repeat split; auto.
  - exists []. rewrite app_nil_r. cbn. repeat split; auto.
  - exists []. rewrite app_nil_r. cbn. repeat split; auto.
  - exists []. rewrite app_nil_r. cbn. repeat split; auto.
  - exists []. rewrite app_nil_r. cbn. repeat split; auto.
  - exists [SendResponse 204; EndHeaders]. cbn. repeat split; auto.
Qed.

(** X2: the 204 answer is sent only after the record is in the file and the
    file is closed: when 204 is among what the handler sent, the handler
    returned normally, the request was for the endpoint, the file holds its
    old contents followed by the newline-terminated bytes taken from the
    connection, and in the order of what the handler did the file
    operations, the close last, all come before [send_response(204)]. *)
Theorem answer_204_means_record_stored :
  forall (endpoint : string) (self : Request) (s : State) (evs : list event),
    wfile (snd (do_POST endpoint self s)) = wfile s ++ evs ->
    In (SendResponse 204) evs ->
    fst (do_POST endpoint self s) = Ok tt /\
    path self = endpoint /\
    exists (data : bytes) (ops : list fs_event),
      rfile s = data ++ rfile (snd (do_POST endpoint self s)) /\
      log_file (fs (snd (do_POST endpoint self s)))
      = Some (contents (fs s) ++ newline_terminated data) /\
      fs_log (fs (snd (do_POST endpoint self s)))
      = fs_log (fs s) ++ ops ++ [Close] /\
      written ops = newline_terminated data /\
      history (snd (do_POST endpoint self s))
      = history s
          ++ map FileOp (ops ++ [Close])
          ++ [Sent (SendResponse 204); Sent EndHeaders].
Proof.
  intros endpoint self s evs Hw Hin.
  destruct (do_POST_outcome endpoint self s)
    as [Hp | e Hp Hi | n e Hp Hi Hn | n Hp Hi Hb | n Hp Hi Hn Ho
        | n Hp Hi Hn Ho Hf | n Hp Hi Hn Ho Hf];
    cbn [fst snd wfile emit fs rfile history] in *.
  - rewrite <- app_assoc in Hw. apply app_inv_head in Hw. subst evs.
    cbn in Hin. exfalso. intuition discriminate.
  - apply app_inv_nil in Hw. subst evs. destruct Hin.
  - apply app_inv_nil in Hw. subst evs. destruct Hin.
  - apply app_inv_nil in Hw. subst evs. destruct Hin.
  - apply app_inv_nil in Hw. subst evs. destruct Hin.
  - apply app_inv_nil in Hw. subst evs. destruct Hin.
  - split; [reflexivity|]. split; [exact Hp|].
    exists (read_data n (rfile s)).
    exists ([OpenAppend; Wrote (read_data n (rfile s))]
              ++ (if endswith (read_data n (rfile s)) [NL]
                  then [] else [Wrote [NL]])).
    split; [apply read_data_rest|]. split; [reflexivity|].
    unfold appended, stored_ops. cbn [fs_log]. split; [|split].
    + now rewrite <- !app_assoc.
    + rewrite newline_terminated_endswith.
      destruct (endswith (read_data n (rfile s)) [NL]); cbn;
        now rewrite ?app_nil_r.
    + now rewrite <- !app_assoc.
Qed.

(** X3: the handler takes bytes from the front of the connection only, none at
    all for another path, and for a [Content-Length] of [n >= 0] never more
    than [n]. *)
Theorem handler_reads_a_bounded_prefix :
  forall (endpoint : string) (self : Request) (s : State),
  exists data : bytes,
    rfile s = data ++ rfile (snd (do_POST endpoint self s)) /\
    (path self <> endpoint -> data = []) /\
    (forall n : Z,
        int (get (headers self) "Content-Length" (PyInt 0)) = Ok n ->
        0 <= n ->
        Z.of_nat (List.length data) <= n).
Proof.
  intros endpoint self s.
  assert (Hb : forall n : Z,
             0 <= n -> Z.of_nat (List.length (read_data n (rfile s))) <= n).
  { intros n Hn. unfold read_data.
    replace (n =? -1) with false by (symmetry; apply Z.eqb_neq; lia).
    pose proof (firstn_le_length (Z.to_nat n) (rfile s)). lia. }
  destruct (do_POST_outcome endpoint self s)
    as [Hp | e Hp Hi | n e Hp Hi Hn | n Hp Hi Hw | n Hp Hi Hn Ho
        | n Hp Hi Hn Ho Hf | n Hp Hi Hn Ho Hf]; cbn [snd rfile emit].
  - exists []. repeat split; [intros; cbn; lia].
  - exists []. repeat split; [intros; cbn; lia].
  - exists []. repeat split; [intros; cbn; lia].
  - exists []. repeat split; [intros; cbn; lia].
  - exists (read_data n (rfile s)). split; [apply read_data_rest|].
    split; [intros H; contradiction|].
    intros m Hm Hpos. rewrite Hi in Hm. injection Hm as <-. now apply Hb.
  - exists (read_data n (rfile s)). split; [apply read_data_rest|].
    split; [intros H; contradiction|].
    intros m Hm Hpos. rewrite Hi in Hm. injection Hm as <-. now apply Hb.
  - exists (read_data n (rfile s)). split; [apply read_data_rest|].
    split; [intros H; contradiction|].
    intros m Hm Hpos. rewrite Hi in Hm. injection Hm as <-. now apply Hb.
Qed.

(** X4: a [Content-Length] of [-1], or one that is more than the bytes that
    have arrived (and for which a buffer can be had), makes the handler wait
    for the peer.  When the peer has closed its side, the handler takes the
    whole stream: the record of all of it is appended and the answer is
    204.  While the peer keeps the connection open, the handler waits for
    ever: it reads, writes and sends nothing. *)
Theorem content_length_beyond_stream_takes_all :
  forall (endpoint : string) (self : Request) (s : State) (n : Z),
    path self = endpoint ->
    int (get (headers self) "Content-Length" (PyInt 0)) = Ok n ->
    n = -1
    \/ (Z.of_nat (List.length (rfile s)) < n
        /\ n <= PY_SSIZE_T_MAX - PyBytesObject_SIZE
        /\ n <= Z.of_nat (memory s)) ->
    (eof s = true ->
     writable (fs s) (List.length (newline_terminated (rfile s))) ->
     exists s',
       do_POST endpoint self s = (Ok tt, s') /\
       rfile s' = [] /\
       log_file (fs s')
       = Some (contents (fs s) ++ newline_terminated (rfile s)) /\
       wfile s' = wfile s ++ [SendResponse 204; EndHeaders])
    /\
    (eof s = false -> do_POST endpoint self s = (Blocked, s)).
Proof.
  intros endpoint self s n Hp Hi Hn. split.
  - intros He (Ho & Hf).
    assert (Hd : read_data n (rfile s) = rfile s).
    { unfold read_data. destruct (n =? -1) eqn:E; [reflexivity|].
      apply Z.eqb_neq in E. apply firstn_all2. lia. }
    assert (Hr : read_rest n (rfile s) = []).
    { unfold read_rest. destruct (n =? -1) eqn:E; [reflexivity|].
      apply Z.eqb_neq in E. apply skipn_all2. lia. }
    assert (Hret : read_returns n s = true).
    { unfold read_returns. rewrite He.
      destruct (n =? -1) eqn:E; [reflexivity|].
      apply Z.eqb_neq in E.
      destruct Hn as [Hn|(H1 & H2 & H3)]; [contradiction|].
      unfold PyBytesObject_SIZE in *.
      replace (0 <=? n) with true by (symmetry; apply Z.leb_le; lia).
      replace (n <=? PY_SSIZE_T_MAX) with true
        by (symmetry; apply Z.leb_le; lia).
      replace (n <=? PY_SSIZE_T_MAX - 33) with true
        by (symmetry; apply Z.leb_le; lia).
      replace (n <=? Z.of_nat (memory s)) with true
        by (symmetry; apply Z.leb_le; lia).
      now rewrite orb_true_r. }
    pose proof (do_POST_ok endpoint self s n Hp Hi Hret Ho) as H.
    rewrite Hd, Hr in H.
    eexists. split; [exact (H Hf)|]. repeat split; reflexivity.
  - intros He. apply (do_POST_waits endpoint self s n Hp Hi).
    unfold read_waits. rewrite He. cbn [negb andb].
    destruct Hn as [->|(H1 & H2 & H3)]; [reflexivity|].
    replace (Z.of_nat (List.length (rfile s)) <? n) with true
      by (symmetry; apply Z.ltb_lt; lia).
    replace (n <=? PY_SSIZE_T_MAX - PyBytesObject_SIZE) with true
      by (symmetry; apply Z.leb_le; lia).
    replace (n <=? Z.of_nat (memory s)) with true
      by (symmetry; apply Z.leb_le; lia).
    now rewrite orb_true_r.
Qed.

(** X5: a [Content-Length] that [int] accepts but [read] refuses makes the
    handler raise before it touches the connection or the file: sizes below
    [-1] raise [ValueError], sizes outside [Py_ssize_t] raise
    [OverflowError]; nothing is sent. *)
Theorem content_length_out_of_range_raises :
  forall (endpoint : string) (self : Request) (s : State) (n : Z),
    path self = endpoint ->
    int (get (headers self) "Content-Length" (PyInt 0)) = Ok n ->
    n < -1 \/ PY_SSIZE_T_MAX < n ->
    do_POST endpoint self s
    = (Raise (if (n <? - PY_SSIZE_T_MAX - 1) || (PY_SSIZE_T_MAX <? n)
              then OverflowError else ValueError),
       s).
Proof.
  intros endpoint self s n Hp Hi Hn. unfold do_POST.
  apply String.eqb_eq in Hp. rewrite Hp. cbn [negb].
  unfold bind at 1. unfold lift. rewrite Hi.
  unfold bind at 1. unfold rfile_read.
  destruct ((n <? - PY_SSIZE_T_MAX - 1) || (PY_SSIZE_T_MAX <? n)) eqn:E;
    [reflexivity|].
  apply orb_false_iff in E. destruct E as [_ E]. apply Z.ltb_ge in E.
  replace (n <? -1) with true by (symmetry; apply Z.ltb_lt; lia).
  reflexivity.
Qed.

(** X7: the log file stays a file of lines: if it is empty or ends with a
    newline before a request, it is so after it, whatever the request,
    unless a write failed half-way. *)
Theorem log_file_stays_line_structured :
  forall (endpoint : string) (self : Request) (s : State)
         (ops : list fs_event),
    fs_log (fs (snd (do_POST endpoint self s))) = fs_log (fs s) ++ ops ->
    ~ In WriteFailed ops ->
    line_structured (contents (fs s)) ->
    line_structured (contents (fs (snd (do_POST endpoint self s)))).
Proof.
  intros endpoint self s ops Hlog Hnf Hinv.
  destruct (do_POST_outcome endpoint self s)
    as [Hp | e Hp Hi | n e Hp Hi Hn | n Hp Hi Hw | n Hp Hi Hn Ho
        | n Hp Hi Hn Ho Hf | n Hp Hi Hn Ho Hf]; cbn [snd fs emit] in *; try exact Hinv.
  - exfalso. apply Hnf. unfold truncated in Hlog. cbn [fs_log] in Hlog.
    apply app_inv_head in Hlog. subst ops.
    apply in_or_app. right. apply in_or_app. right. now left.
  - right. unfold appended, contents at 1. cbn [log_file].
    destruct (newline_terminated_ends (read_data n (rfile s))) as [d ->].
    exists (contents (fs s) ++ d). now rewrite app_assoc.
Qed.

Lemma get_skips_other_headers (pre post : Headers) (k v : string)
  (name : string) (failobj : pyval) :
  has_header pre name = false ->
  lower k = lower name ->
  get (pre ++ (k, v) :: post) name failobj = PyStr v.
Proof.
  intros Hpre Hk. induction pre as [|[k0 v0] pre IH]; cbn.
  - rewrite Hk, String.eqb_refl. reflexivity.
  - cbn in Hpre. apply orb_false_iff in Hpre. destruct Hpre as [H0 Hpre].
    rewrite H0. now apply IH.
Qed.

(** X8: of the headers the handler looks at one only: the first whose name is
    [Content-Length] in any mix of upper and lower case.  What stands before
    it under another name, and everything after it, changes nothing. *)
Theorem first_content_length_header_decides :
  forall (endpoint target : string) (pre post : Headers) (k v : string)
         (s : State),
    has_header pre "Content-Length" = false ->
    lower k = "content-length"%string ->
    do_POST endpoint (mkRequest target (pre ++ (k, v) :: post)) s
    = do_POST endpoint (mkRequest target [("Content-Length"%string, v)]) s.
Proof.
  intros endpoint target pre post k v s Hpre Hk.
  unfold do_POST. cbn [path headers].
  rewrite (get_skips_other_headers pre post k v "Content-Length" (PyInt 0)
             Hpre Hk).
  reflexivity.
Qed.

(** * Further properties of the server loop *)

(** One connection of the kinds of [handled], on a disk with room. *)
Lemma handled_step (endpoint : string) (c : Connection) (rec : bytes)
  (answer : list event) (f : FileSystem) :
  handled endpoint c rec answer ->
  writable f (List.length rec) ->
  let rs := do_POST endpoint (conn_request c) (handler_state f c) in
  fst rs <> Blocked /\
  wfile (snd rs) = answer /\
  contents (fs (snd rs)) = contents f ++ rec /\
  may_open (fs (snd rs)) = may_open f /\
  free_space (fs (snd rs)) = (free_space f - List.length rec)%nat.
Proof.
  intros H Hw.
  destruct H as [B Hposts | Hp | e Hp Hi | n Hp Hi Hn]; cbn zeta.
  - destruct (posts_stored endpoint (conn_request c)
                (handler_state f c) B Hposts Hw)
      as (rest & _ & Hrun).
    rewrite Hrun. cbn [fst snd fs wfile appended contents log_file may_open
                         free_space app handler_state].
    repeat split; reflexivity || discriminate.
  - rewrite (do_POST_mismatch _ _ _ Hp).
    cbn [fst snd fs wfile emit app List.length handler_state].
    rewrite app_nil_r, Nat.sub_0_r.
    repeat split; reflexivity || discriminate.
  - rewrite (do_POST_int_raises _ _ _ e Hp Hi).
    cbn [fst snd fs wfile List.length handler_state].
    rewrite app_nil_r, Nat.sub_0_r.
    repeat split; reflexivity || discriminate.
  - destruct (rfile_read_raises n (handler_state f c) Hn)
      as [e He].
    rewrite (do_POST_read_raises _ _ _ n e Hp Hi He).
    cbn [fst snd fs wfile List.length handler_state].
    rewrite app_nil_r, Nat.sub_0_r.
    repeat split; reflexivity || discriminate.
Qed.

(** X10: mixed traffic: when every connection is a POST of a body to the
    endpoint, a request for another path, or a request whose
    [Content-Length] is refused, the log file ends up with its old contents
    followed by the records of the bodies alone, in the order of arrival,
    and the connections are answered 204, 404 and not at all. *)
Theorem mixed_traffic_logs_only_the_posts :
  forall (endpoint : string) (conns : list Connection)
         (outs : list (bytes * list event)) (f : FileSystem),
    Forall2 (fun c o => handled endpoint c (fst o) (snd o)) conns outs ->
    writable f (List.length (List.concat (map fst outs))) ->
    contents (snd (serve_forever (make_handler endpoint) conns f))
    = contents f ++ List.concat (map fst outs)
    /\
    map snd (fst (serve_forever (make_handler endpoint) conns f))
    = map snd outs.
Proof.
  intros endpoint conns outs f HF. revert f.
  induction HF as [|c [rec answer] conns outs Hh HF IH]; intros f (Ho & Hf).
  - cbn. now rewrite app_nil_r.
  - cbn [map List.concat fst snd] in *. rewrite length_app in Hf.
    assert (Hw : writable f (List.length rec)) by (split; [exact Ho | lia]).
    destruct (handled_step endpoint c rec answer f Hh Hw)
      as (Hnb & Hans & Hc & Hm & Hfree).
    cbn zeta in Hnb, Hans, Hc, Hm, Hfree.
    rewrite serve_forever_cons by exact Hnb.
    cbn [make_handler handler_do_POST]. cbn zeta. cbn [fst snd map].
    destruct (IH (fs (snd (do_POST endpoint (conn_request c)
                             (handler_state f c)))))
      as [IHc IHr].
    { split; [now rewrite Hm | rewrite Hfree; lia]. }
    cbn [make_handler] in IHc, IHr.
    rewrite IHc, IHr, Hc, Hans, <- app_assoc. split; reflexivity.
Qed.

Lemma result_eq_Blocked {A : Type} (r : result A) :
  r = Blocked \/ r <> Blocked.
Proof.
  destruct r; [right; discriminate | right; discriminate | now left].
Qed.

Lemma do_POST_grows (endpoint : string) (self : Request) (s : State) :
  exists suffix : bytes,
    contents (fs (snd (do_POST endpoint self s))) = contents (fs s) ++ suffix /\
    may_open (fs (snd (do_POST endpoint self s))) = may_open (fs s) /\
    (free_space (fs (snd (do_POST endpoint self s))) <= free_space (fs s))%nat /\
    (log_file (fs s) <> None ->
     log_file (fs (snd (do_POST endpoint self s))) <> None).
Proof.
  destruct (do_POST_outcome endpoint self s)
    as [Hp | e Hp Hi | n e Hp Hi Hn | n Hp Hi Hw | n Hp Hi Hn Ho
        | n Hp Hi Hn Ho Hf | n Hp Hi Hn Ho Hf]; cbn [snd fs emit].
  - exists []. rewrite app_nil_r. repeat split; auto.
  - exists []. rewrite app_nil_r. repeat split; auto.
  - exists []. rewrite app_nil_r. repeat split; auto.
  - exists []. rewrite app_nil_r. repeat split; auto.
  - exists []. rewrite app_nil_r. repeat split; auto.
  - eexists. unfold truncated, contents at 1.
    cbn [log_file may_open free_space].
    split; [reflexivity|]. repeat split; [lia | discriminate].
  - eexists. unfold appended, contents at 1.
    cbn [log_file may_open free_space].
    split; [reflexivity|]. repeat split; [lia | discriminate].
Qed.

(** X11: whatever the connections and whatever the disk does, a run of the
    server only grows the log file: the contents at the start are a prefix
    of the contents at the end, a file that exists is never removed and the
    free space never grows.  There is one outcome for each connection the
    server came to; it comes to all of them unless a handler waits for
    ever. *)
Theorem server_run_is_append_only :
  forall (endpoint : string) (conns : list Connection) (f : FileSystem),
  exists suffix : bytes,
    contents (snd (serve_forever (make_handler endpoint) conns f))
    = contents f ++ suffix /\
    (log_file f <> None ->
     log_file (snd (serve_forever (make_handler endpoint) conns f)) <> None) /\
    (free_space (snd (serve_forever (make_handler endpoint) conns f))
     <= free_space f)%nat /\
    (List.length (fst (serve_forever (make_handler endpoint) conns f))
     <= List.length conns)%nat /\
    (Forall (fun r => fst r <> Blocked)
            (fst (serve_forever (make_handler endpoint) conns f)) ->
     List.length (fst (serve_forever (make_handler endpoint) conns f))
     = List.length conns).
Proof.
  intros endpoint conns. induction conns as [|c conns IH]; intros f.
  - exists []. cbn. rewrite app_nil_r. repeat split; auto.
  - destruct (do_POST_grows endpoint (conn_request c) (handler_state f c))
      as (suf1 & Hc1 & _ & Hf1 & He1).
    cbn [fs handler_state] in Hc1, Hf1, He1.
    destruct (result_eq_Blocked
                (fst (do_POST endpoint (conn_request c) (handler_state f c))))
      as [Hb|Hb].
    + rewrite serve_forever_blocked by exact Hb.
      cbn [make_handler handler_do_POST fst snd List.length].
      exists suf1. repeat split; auto; try lia.
      intros HF. inversion HF as [|r rs Hr _]; subst.
      cbn [fst] in Hr. contradiction.
    + rewrite serve_forever_cons by exact Hb.
      cbn [make_handler handler_do_POST]. cbn zeta.
      cbn [fst snd List.length].
      destruct (IH (fs (snd (do_POST endpoint (conn_request c)
                               (handler_state f c)))))
        as (suf2 & Hc2 & He2 & Hf2 & Hl2 & Hl3).
      cbn [make_handler] in Hc2, He2, Hf2, Hl2, Hl3.
      exists (suf1 ++ suf2). rewrite Hc2, Hc1, <- app_assoc.
      repeat split; auto; try lia.
      intros HF. inversion HF as [|r rs _ HF']; subst.
      now rewrite (Hl3 HF').
Qed.

(** * Further properties of the command line *)

Lemma list_length_ind {A : Type} (P : list A -> Prop) :
  (forall l, (forall l', (List.length l' < List.length l)%nat -> P l') -> P l) ->
  forall l, P l.
Proof.
  intros H l.
  assert (G : forall n l', (List.length l' < n)%nat -> P l').
  { induction n as [|n IH]; intros l' Hl; [lia|].
    apply H. intros l'' Hl''. apply IH. lia. }
  apply (G (S (List.length l))). lia.
Qed.

(** Once a token was taken by no option the parse cannot succeed. *)
Lemma consume_extras_fails (ts : list token) :
  forall (ns ns' : Namespace), consume ts ns true <> Ok ns'.
Proof.
  induction ts as [ts IH] using list_length_ind. intros ns ns'.
  destruct ts as [|t ts]; cbn [consume]; [discriminate|].
  destruct t as [x | [[[[|dest type d]|] opt] [e|]] | ].
  - apply IH. cbn. lia.
  - destruct (_ && _); discriminate.
  - discriminate.
  - destruct (String.eqb e "--"); [apply IH; cbn; lia|].
    destruct (get_value type e); [apply IH; cbn; lia | discriminate..].
  - destruct ts as [|[x| |] ts'']; try discriminate.
    destruct (get_value type x); [apply IH; cbn; lia | discriminate..].
  - apply IH. cbn. lia.
  - apply IH. cbn. lia.
  - apply IH. cbn. lia.
Qed.

Lemma consume_ok_no_extras (ts : list token) (ns ns' : Namespace)
  (extras : bool) :
  consume ts ns extras = Ok ns' -> extras = false.
Proof.
  destruct extras; [|reflexivity].
  intros H. now apply consume_extras_fails in H.
Qed.

(** An accepted list of tokens has no separator in it. *)
Lemma consume_ok_no_sep (ts : list token) :
  forall (ns ns' : Namespace) (extras : bool),
    consume ts ns extras = Ok ns' -> ~ In TokSep ts.
Proof.
  induction ts as [ts IH] using list_length_ind. intros ns ns' extras.
  destruct ts as [|t ts]; cbn [consume]; [intros _ []|].
  destruct t as [x | [[[[|dest type d]|] opt] [e|]] | ].
  - intros H. now apply consume_extras_fails in H.
  - destruct (_ && _); discriminate.
  - discriminate.
  - destruct (String.eqb e "--").
    + intros H [Hs|Hs]; [discriminate|].
      apply IH in H; [contradiction | cbn; lia].
    + destruct (get_value type e); [|discriminate..].
      intros H [Hs|Hs]; [discriminate|].
      apply IH in H; [contradiction | cbn; lia].
  - destruct ts as [|[x| |] ts'']; try discriminate.
    destruct (get_value type x); [|discriminate..].
    intros H [Hs|[Hs|Hs]]; try discriminate.
    apply IH in H; [contradiction | cbn; lia].
  - intros H. now apply consume_extras_fails in H.
  - intros H. now apply consume_extras_fails in H.
  - intros H. now apply consume_extras_fails in H.
Qed.

(** Tokens after an accepted list are consumed from the namespace that list
    leaves. *)
Lemma consume_app (ts2 : list token) (ts1 : list token) :
  forall (ns ns1 : Namespace) (extras : bool),
    consume ts1 ns extras = Ok ns1 ->
    consume (ts1 ++ ts2) ns extras = consume ts2 ns1 false.
Proof.
  induction ts1 as [ts1 IH] using list_length_ind. intros ns ns1 extras.
  destruct ts1 as [|t ts1]; cbn [consume app].
  { destruct extras; [discriminate|]. now intros [= ->]. }
  destruct t as [x | [[[[|dest type d]|] opt] [e|]] | ].
  - intros H. now apply consume_extras_fails in H.
  - destruct (_ && _); discriminate.
  - discriminate.
  - destruct (String.eqb e "--").
    + apply IH. cbn. lia.
    + destruct (get_value type e); [|discriminate..]. apply IH. cbn. lia.
  - destruct ts1 as [|[x| |] ts'']; try discriminate. cbn [app].
    destruct (get_value type x); [|discriminate..]. apply IH. cbn. lia.
  - intros H. now apply consume_extras_fails in H.
  - intros H. now apply consume_extras_fails in H.
  - intros H. now apply consume_extras_fails in H.
Qed.

Lemma classify_app (p : ArgumentParser) (argv2 : list string)
  (argv1 : list string) :
  forall ts1 : list token,
    classify p false argv1 = Ok ts1 ->
    ~ In TokSep ts1 ->
    classify p false (argv1 ++ argv2)
    = match classify p false argv2 with
      | Ok ts2 => Ok (ts1 ++ ts2)
      | Raise e => Raise e
      | Blocked => Blocked
      end.
Proof.
  induction argv1 as [|s argv1 IH]; intros ts1; cbn [classify app].
  - intros [= <-] _. now destruct (classify p false argv2).
  - destruct (String.eqb s "--").
    + destruct (classify p true argv1); [|discriminate..].
      intros [= <-] H. exfalso. apply H. now left.
    + destruct (parse_optional p s) as [o| |]; [|discriminate..].
      destruct (classify p false argv1) as [ts| |] eqn:E; [|discriminate..].
      intros [= <-] H.
      rewrite (IH ts eq_refl) by (intros Hs; apply H; now right).
      now destruct (classify p false argv2).
Qed.

Lemma getattr_setattr_same (ns : Namespace) (d : string) (v : pyval) :
  getattr (setattr ns d v) d = Some v.
Proof.
  induction ns as [|[k w] ns IH]; cbn.
  - now rewrite String.eqb_refl.
  - destruct (String.eqb k d) eqn:E; cbn; rewrite E; [reflexivity | exact IH].
Qed.

(** An option and its argument after an accepted command line. *)
Lemma parse_args_append_option (argv : list string) (ns : Namespace)
  (flag dest : string) (type : arg_type) (d : pyval) (x : string) :
  parse_args parser argv = Ok ns ->
  String.eqb flag "--" = false ->
  parse_optional parser flag
  = Ok (Some (Some (StoreAction dest type d), flag, None)) ->
  is_argument x = true ->
  parse_args parser (argv ++ [flag; x])
  = match get_value type x with
    | Ok v => Ok (setattr ns dest v)
    | Raise e => Raise e
    | Blocked => Blocked
    end.
Proof.
  unfold parse_args, is_argument. intros Hargs Hflag Hopt Hx.
  apply andb_true_iff in Hx. destruct Hx as [Hx1 Hx2].
  apply negb_true_iff in Hx1.
  destruct (parse_optional parser x) as [[t|]| |] eqn:Hx3; try discriminate.
  destruct (classify parser false argv) as [ts| |] eqn:Ec; [|discriminate..].
  rewrite (classify_app parser [flag; x] argv ts Ec
             (consume_ok_no_sep _ _ _ _ Hargs)).
  cbn [classify]. rewrite Hflag, Hopt, Hx1, Hx3.
  rewrite (consume_app _ _ _ _ _ Hargs). cbn [consume].
  now destruct (get_value type x).
Qed.

(** An option with [=value] after an accepted command line. *)
Lemma parse_args_append_assignment (argv : list string) (ns : Namespace)
  (tok flag dest : string) (type : arg_type) (d : pyval) (x : string) :
  parse_args parser argv = Ok ns ->
  String.eqb tok "--" = false ->
  parse_optional parser tok
  = Ok (Some (Some (StoreAction dest type d), flag, Some x)) ->
  x <> "--"%string ->
  parse_args parser (argv ++ [tok])
  = match get_value type x with
    | Ok v => Ok (setattr ns dest v)
    | Raise e => Raise e
    | Blocked => Blocked
    end.
Proof.
  unfold parse_args. intros Hargs Htok Hopt Hx.
  destruct (classify parser false argv) as [ts| |] eqn:Ec; [|discriminate..].
  rewrite (classify_app parser [tok] argv ts Ec
             (consume_ok_no_sep _ _ _ _ Hargs)).
  cbn [classify]. rewrite Htok, Hopt.
  rewrite (consume_app _ _ _ _ _ Hargs). cbn [consume].
  apply String.eqb_neq in Hx. rewrite Hx.
  now destruct (get_value type x).
Qed.

Lemma main_config_inv (argv : list string) (cfg : Config) :
  main_config argv = Ok cfg ->
  exists args : Namespace,
    parse_args parser argv = Ok args /\
    getattr args "host" = Some (host cfg) /\
    getattr args "port" = Some (port cfg) /\
    getattr args "endpoint" = Some (endpoint cfg).
Proof.
  unfold main_config.
  destruct (parse_args parser argv) as [args| |]; [|discriminate..].
  destruct (getattr args "host") as [h|] eqn:Eh; [|discriminate].
  destruct (getattr args "port") as [p|] eqn:Ep; [|discriminate].
  destruct (getattr args "endpoint") as [e|] eqn:Ee; [|discriminate].
  intros [= <-]. exists args. cbn [host port endpoint].
  repeat split; assumption.
Qed.

Lemma config_after_setattr (args : Namespace) (cfg : Config) :
  getattr args "host" = Some (host cfg) ->
  getattr args "port" = Some (port cfg) ->
  getattr args "endpoint" = Some (endpoint cfg) ->
  forall v : pyval,
    (getattr (setattr args "host" v) "host" = Some v /\
     getattr (setattr args "host" v) "port" = Some (port cfg) /\
     getattr (setattr args "host" v) "endpoint" = Some (endpoint cfg)) /\
    (getattr (setattr args "port" v) "host" = Some (host cfg) /\
     getattr (setattr args "port" v) "port" = Some v /\
     getattr (setattr args "port" v) "endpoint" = Some (endpoint cfg)) /\
    (getattr (setattr args "endpoint" v) "host" = Some (host cfg) /\
     getattr (setattr args "endpoint" v) "port" = Some (port cfg) /\
     getattr (setattr args "endpoint" v) "endpoint" = Some v).
Proof.
  intros Hh Hp He v.
  rewrite !getattr_setattr_same.
  rewrite !getattr_setattr_other by discriminate.
  repeat split; assumption.
Qed.

(** X13: [--endpoint X] and [--host X] after a command line that is accepted:
    the command line is still accepted, the option given last decides, [X]
    is taken as it stands, and the other settings stay. *)
Theorem later_endpoint_and_host_options_override :
  forall (argv : list string) (cfg : Config) (x : string),
    main_config argv = Ok cfg ->
    is_argument x = true ->
    main_config (argv ++ ["--endpoint"%string; x])
    = Ok (mkConfig (host cfg) (port cfg) (PyStr x))
    /\
    main_config (argv ++ ["--host"%string; x])
    = Ok (mkConfig (PyStr x) (port cfg) (endpoint cfg)).
Proof.
  intros argv cfg x Hcfg Hx.
  destruct (main_config_inv argv cfg Hcfg) as (args & Hargs & Hh & Hp & He).
  destruct (config_after_setattr args cfg Hh Hp He (PyStr x))
    as ((H1 & H2 & H3) & _ & (H7 & H8 & H9)).
  split; unfold main_config.
  - rewrite (parse_args_append_option argv args "--endpoint" "endpoint"
               TypeNone (PyStr "/logs") x Hargs eq_refl eq_refl Hx).
    cbn [get_value]. now rewrite H7, H8, H9.
  - rewrite (parse_args_append_option argv args "--host" "host"
               TypeNone (PyStr "0.0.0.0") x Hargs eq_refl eq_refl Hx).
    cbn [get_value]. now rewrite H1, H2, H3.
Qed.

(** X14: [--port V] after a command line that is accepted: when [int] accepts
    [V] the port is that integer, whatever its size or sign; when it does
    not, the program exits with status 2. *)
Theorem port_option_is_converted_by_int :
  forall (argv : list string) (cfg : Config) (v : string),
    main_config argv = Ok cfg ->
    is_argument v = true ->
    main_config (argv ++ ["--port"%string; v])
    = match int_of_str v with
      | Some n => Ok (mkConfig (host cfg) (PyInt n) (endpoint cfg))
      | None => Raise (SystemExit 2)
      end.
Proof.
  intros argv cfg v Hcfg Hv.
  destruct (main_config_inv argv cfg Hcfg) as (args & Hargs & Hh & Hp & He).
  unfold main_config.
  rewrite (parse_args_append_option argv args "--port" "port"
             TypeInt (PyInt 9000) v Hargs eq_refl eq_refl Hv).
  cbn [get_value int].
  destruct (int_of_str v) as [n|]; [|reflexivity].
  destruct (config_after_setattr args cfg Hh Hp He (PyInt n))
    as (_ & (H4 & H5 & H6) & _).
  now rewrite H4, H5, H6.
Qed.

(** X15: the same options written [--endpoint=X] and [--port=V], for any [X] and
    [V] other than [--]: the text after the [=] is the value, also when it
    starts with a dash. *)
Theorem assignment_form_of_options :
  forall (argv : list string) (cfg : Config) (x : string),
    main_config argv = Ok cfg ->
    x <> "--"%string ->
    main_config (argv ++ [("--endpoint=" ++ x)%string])
    = Ok (mkConfig (host cfg) (port cfg) (PyStr x))
    /\
    main_config (argv ++ [("--port=" ++ x)%string])
    = match int_of_str x with
      | Some n => Ok (mkConfig (host cfg) (PyInt n) (endpoint cfg))
      | None => Raise (SystemExit 2)
      end.
Proof.
  intros argv cfg x Hcfg Hx.
  destruct (main_config_inv argv cfg Hcfg) as (args & Hargs & Hh & Hp & He).
  split; unfold main_config.
  - rewrite (parse_args_append_assignment argv args ("--endpoint=" ++ x)
               "--endpoint" "endpoint" TypeNone (PyStr "/logs") x
               Hargs eq_refl eq_refl Hx).
    cbn [get_value].
    destruct (config_after_setattr args cfg Hh Hp He (PyStr x))
      as (_ & _ & (H7 & H8 & H9)).
    now rewrite H7, H8, H9.
  - rewrite (parse_args_append_assignment argv args ("--port=" ++ x)
               "--port" "port" TypeInt (PyInt 9000) x
               Hargs eq_refl eq_refl Hx).
    cbn [get_value int].
    destruct (int_of_str x) as [n|]; [|reflexivity].
    destruct (config_after_setattr args cfg Hh Hp He (PyInt n))
      as (_ & (H4 & H5 & H6) & _).
    now rewrite H4, H5, H6.
Qed.

(** X16: a command line that starts with a word that is no option is never
    accepted: the program exits before it binds a socket. *)
Theorem leading_stray_argument_is_refused :
  forall (tok : string) (argv : list string) (cfg : Config),
    is_argument tok = true ->
    main_config (tok :: argv) <> Ok cfg.
Proof.
  intros tok argv cfg Htok H.
  destruct (main_config_inv _ _ H) as (args & Hargs & _).
  unfold parse_args, is_argument in *.
  apply andb_true_iff in Htok. destruct Htok as [H1 H2].
  apply negb_true_iff in H1.
  destruct (parse_optional parser tok) as [[t|]| |] eqn:H3; try discriminate.
  cbn [classify] in Hargs. rewrite H1, H3 in Hargs.
  destruct (classify parser false argv) as [ts| |]; [|discriminate..].
  cbn [consume] in Hargs. now apply consume_extras_fails in Hargs.
Qed.

(** * Further properties of [int] on a [Content-Length] *)

Lemma digit_of_is_digit (c : ascii) :
  is_digit c = true ->
  digit_of c = Some (Z.of_nat (nat_of_ascii c) - 48) /\
  0 <= Z.of_nat (nat_of_ascii c) - 48 /\
  is_space c = false /\
  Ascii.eqb c "_" = false /\
  Ascii.eqb c "+" = false /\
  Ascii.eqb c "-" = false.
Proof.
  unfold is_digit, digit_of, is_space.
  destruct ((48 <=? nat_of_ascii c) && (nat_of_ascii c <=? 57))%nat eqn:E;
    [|discriminate].
  intros _. apply andb_true_iff in E. destruct E as [E1 E2].
  apply Nat.leb_le in E1, E2.
  split; [reflexivity|]. split; [lia|].
  assert (Hne : forall d : ascii,
             (nat_of_ascii d < 48 \/ 57 < nat_of_ascii d)%nat ->
             Ascii.eqb c d = false).
  { intros d Hd. apply Ascii.eqb_neq. intros ->. lia. }
  repeat split.
  - repeat (apply orb_false_iff; split);
      [apply andb_false_iff; right; apply Nat.leb_gt; lia
      | apply Nat.eqb_neq; lia ..].
  - apply Hne. cbn. lia.
  - apply Hne. cbn. lia.
  - apply Hne. cbn. lia.
Qed.

Lemma scan_digits_all_digits (s : string) :
  forall (acc : Z) (k : nat),
    all_digits s = true ->
    scan_digits s false acc k
    = Some (decimal_value_from acc s, (k + String.length s)%nat, EmptyString).
Proof.
  induction s as [|c s IH]; intros acc k H; cbn.
  - now rewrite Nat.add_0_r.
  - cbn in H. apply andb_true_iff in H. destruct H as [Hc Hs].
    destruct (digit_of_is_digit c Hc) as (-> & _).
    rewrite (IH _ _ Hs). now rewrite Nat.add_succ_r.
Qed.

Lemma decimal_value_from_nonneg (s : string) :
  forall acc : Z,
    0 <= acc -> all_digits s = true -> 0 <= decimal_value_from acc s.
Proof.
  induction s as [|c s IH]; intros acc Hacc H; cbn [decimal_value_from];
    [exact Hacc|].
  cbn [all_digits] in H. apply andb_true_iff in H. destruct H as [Hc Hs].
  destruct (digit_of_is_digit c Hc) as (_ & Hd & _).
  apply IH; [lia | exact Hs].
Qed.

(** X6: a [Content-Length] of one to 4300 decimal digits, the form HTTP
    prescribes, is accepted by [int] with the number it writes, so a POST
    to the endpoint that carries one never ends in [ValueError], neither
    from [int] nor from [read]. *)
Theorem decimal_content_length_is_accepted :
  forall (endpoint : string) (self : Request) (s : State) (v : string),
    v <> EmptyString ->
    all_digits v = true ->
    (String.length v <= int_max_str_digits)%nat ->
    int (PyStr v) = Ok (decimal_value v) /\
    0 <= decimal_value v /\
    (path self = endpoint ->
     get (headers self) "Content-Length" (PyInt 0) = PyStr v ->
     fst (do_POST endpoint self s) <> Raise ValueError).
Proof.
  intros endpoint self s v Hne Hd Hlen.
  assert (Hint : int (PyStr v) = Ok (decimal_value v)).
  { destruct v as [|c v']; [contradiction|].
    pose proof Hd as Hd'. cbn in Hd'.
    apply andb_true_iff in Hd'. destruct Hd' as [Hc _].
    destruct (digit_of_is_digit c Hc) as (_ & _ & Hsp & Hus & Hpl & Hmi).
    assert (Hparse : parse_unsigned (String c v')
                     = Some (decimal_value (String c v'))).
    { unfold parse_unsigned.
      rewrite (scan_digits_all_digits _ 0 0%nat Hd).
      cbn [Nat.add String.length Nat.eqb skip_space].
      replace (int_max_str_digits <? S (String.length v'))%nat with false
        by (symmetry; apply Nat.ltb_ge; exact Hlen).
      destruct c as [[] [] [] [] [] [] [] []]; try reflexivity;
        discriminate Hus. }
    unfold int, int_of_str. cbn [skip_space]. rewrite Hsp.
    destruct c as [[] [] [] [] [] [] [] []];
      try discriminate Hpl; try discriminate Hmi;
      now rewrite Hparse. }
  assert (Hpos : 0 <= decimal_value v)
    by (apply decimal_value_from_nonneg; [lia | exact Hd]).
  split; [exact Hint|]. split; [exact Hpos|].
  intros Hp Hg.
  destruct (do_POST_outcome endpoint self s)
    as [Hq | e _ Hi | n e _ Hi Hn | n _ Hi Hw | n _ Hi Hn Ho
        | n _ Hi Hn Ho Hf | n _ Hi Hn Ho Hf]; cbn [fst];
    try discriminate.
  - rewrite Hg, Hint in Hi. discriminate.
  - rewrite Hg, Hint in Hi. injection Hi as <-.
    unfold rfile_read in Hn.
    replace (decimal_value v <? -1) with false in Hn
      by (symmetry; apply Z.ltb_ge; lia).
    intros He. injection He as ->.
    destruct ((decimal_value v <? - PY_SSIZE_T_MAX - 1)
              || (PY_SSIZE_T_MAX <? decimal_value v)); [discriminate|].
    destruct (decimal_value v =? -1); [destruct (eof s); discriminate|].
    destruct (decimal_value v <=? Z.of_nat (List.length (rfile s)));
      [discriminate|].
    destruct (PY_SSIZE_T_MAX - PyBytesObject_SIZE <? decimal_value v);
      [discriminate|].
    destruct (Z.of_nat (memory s) <? decimal_value v); [discriminate|].
    destruct (eof s); discriminate.
Qed.

(** ** Instances of the further properties *)

Lemma endswith_iff_suffix_witness :
  endswith world_nl [NL] = true /\ endswith hello [] = true.
Proof.
  split.
  - apply (proj2 (endswith_iff_suffix world_nl [NL])).
    exists (list_byte_of_string "world"). reflexivity.
  - apply (proj2 (endswith_iff_suffix hello [])).
    exists hello. reflexivity.
Defined.

Lemma answer_204_means_record_stored_witness :
  fst (do_POST "/logs" (post "/logs" "5") (arriving fresh_fs hello))
  = Ok tt /\
  path (post "/logs" "5") = "/logs"%string /\
  exists (data : bytes) (ops : list fs_event),
    hello = data ++ rfile (snd (do_POST "/logs" (post "/logs" "5")
                                  (arriving fresh_fs hello))) /\
    log_file (fs (snd (do_POST "/logs" (post "/logs" "5")
                         (arriving fresh_fs hello))))
    = Some ([] ++ newline_terminated data) /\
    fs_log (fs (snd (do_POST "/logs" (post "/logs" "5")
                       (arriving fresh_fs hello))))
    = [] ++ ops ++ [Close] /\
    written ops = newline_terminated data /\
    history (snd (do_POST "/logs" (post "/logs" "5")
                    (arriving fresh_fs hello)))
    = [] ++ map FileOp (ops ++ [Close])
         ++ [Sent (SendResponse 204); Sent EndHeaders].
Proof.
  apply (answer_204_means_record_stored
           "/logs" (post "/logs" "5") (arriving fresh_fs hello)
           [SendResponse 204; EndHeaders]).
  - reflexivity.
  - left. reflexivity.
Defined.

Lemma handler_reads_a_bounded_prefix_witness :
  exists data : bytes,
    hello = data ++ rfile (snd (do_POST "/logs" (post "/logs" "3")
                                  (arriving fresh_fs hello))) /\
    Z.of_nat (List.length data) <= 3.
Proof.
  destruct (handler_reads_a_bounded_prefix
              "/logs" (post "/logs" "3") (arriving fresh_fs hello))
    as (data & Hsplit & _ & Hbound).
  exists data. split; [exact Hsplit|].
  apply Hbound; [reflexivity | lia].
Defined.

Lemma content_length_beyond_stream_takes_all_witness :
  (exists s',
      do_POST "/logs" (post "/logs" "-1") (arriving_closed fresh_fs hello)
      = (Ok tt, s') /\
      rfile s' = [] /\
      log_file (fs s') = Some ([] ++ newline_terminated hello) /\
      wfile s' = [] ++ [SendResponse 204; EndHeaders])
  /\
  (exists s',
      do_POST "/logs" (post "/logs" "99") (arriving_closed fresh_fs hello)
      = (Ok tt, s') /\
      rfile s' = [] /\
      log_file (fs s') = Some ([] ++ newline_terminated hello) /\
      wfile s' = [] ++ [SendResponse 204; EndHeaders])
  /\
  do_POST "/logs" (post "/logs" "99") (arriving fresh_fs hello)
  = (Blocked, arriving fresh_fs hello).
Proof.
  assert (Hw : writable fresh_fs (List.length (newline_terminated hello))).
  { unfold writable. split; [reflexivity|]. vm_compute. lia. }
  assert (H99 : forall s : State,
             rfile s = hello -> memory s = 4096%nat ->
             99 = -1
             \/ (Z.of_nat (List.length (rfile s)) < 99
                 /\ 99 <= PY_SSIZE_T_MAX - PyBytesObject_SIZE
                 /\ 99 <= Z.of_nat (memory s))).
  { intros s Hr Hm. right. rewrite Hr, Hm. vm_compute.
    repeat split; discriminate. }
  split; [|split].
  - apply (proj1 (content_length_beyond_stream_takes_all
                    "/logs" (post "/logs" "-1")
                    (arriving_closed fresh_fs hello) (-1)
                    eq_refl eq_refl (or_introl eq_refl)));
      [reflexivity | exact Hw].
  - apply (proj1 (content_length_beyond_stream_takes_all
                    "/logs" (post "/logs" "99")
                    (arriving_closed fresh_fs hello) 99
                    eq_refl eq_refl
                    (H99 (arriving_closed fresh_fs hello) eq_refl eq_refl)));
      [reflexivity | exact Hw].
  - apply (proj2 (content_length_beyond_stream_takes_all
                    "/logs" (post "/logs" "99")
                    (arriving fresh_fs hello) 99
                    eq_refl eq_refl
                    (H99 (arriving fresh_fs hello) eq_refl eq_refl))).
    reflexivity.
Defined.

Lemma content_length_out_of_range_raises_witness :
  do_POST "/logs" (post "/logs" "-2") (arriving fresh_fs hello)
  = (Raise ValueError, arriving fresh_fs hello).
Proof.
  apply (content_length_out_of_range_raises
           "/logs" (post "/logs" "-2") (arriving fresh_fs hello) (-2));
    [reflexivity | reflexivity | left; lia].
Defined.

Lemma log_file_stays_line_structured_witness :
  line_structured
    (contents (fs (snd (do_POST "/logs" (post "/logs" "5")
                          (arriving fresh_fs hello))))).
Proof.
  apply (log_file_stays_line_structured
           "/logs" (post "/logs" "5") (arriving fresh_fs hello)
           [OpenAppend; Wrote hello; Wrote [NL]; Close]).
  - reflexivity.
  - intros [H|[H|[H|[H|[]]]]]; discriminate H.
  - left. reflexivity.
Defined.

Lemma first_content_length_header_decides_witness :
  do_POST "/logs"
    (mkRequest "/logs"
       ([("Host"%string, "sink"%string);
         ("Content-Type"%string, "text/plain"%string)]
          ++ ("CONTENT-length"%string, "5"%string)
          :: [("Content-Length"%string, "0"%string)]))
    (arriving fresh_fs hello)
  = do_POST "/logs" (mkRequest "/logs" [("Content-Length"%string, "5"%string)])
      (arriving fresh_fs hello).
Proof.
  apply (first_content_length_header_decides
           "/logs" "/logs"
           [("Host"%string, "sink"%string);
            ("Content-Type"%string, "text/plain"%string)]
           [("Content-Length"%string, "0"%string)] "CONTENT-length" "5");
    reflexivity.
Defined.

Lemma mixed_traffic_logs_only_the_posts_witness :
  contents (snd (serve_forever (make_handler "/logs")
                   [sends (post "/logs" "5") hello;
                    sends (post "/other" "5") hello;
                    sends (post "/logs" "abc") hello;
                    sends (post "/logs" "6") world_nl]
                   fresh_fs))
  = contents fresh_fs
    ++ List.concat
         (map fst
            [(newline_terminated hello, [SendResponse 204; EndHeaders]);
             ([], [SendResponse 404; EndHeaders]);
             ([], []);
             (newline_terminated world_nl, [SendResponse 204; EndHeaders])])
  /\
  map snd (fst (serve_forever (make_handler "/logs")
                  [sends (post "/logs" "5") hello;
                   sends (post "/other" "5") hello;
                   sends (post "/logs" "abc") hello;
                   sends (post "/logs" "6") world_nl]
                  fresh_fs))
  = map snd
      [(newline_terminated hello, [SendResponse 204; EndHeaders]);
       ([], [SendResponse 404; EndHeaders]);
       ([], []);
       (newline_terminated world_nl, [SendResponse 204; EndHeaders])].
Proof.
  apply (mixed_traffic_logs_only_the_posts "/logs").
  - constructor; [|constructor; [|constructor; [|constructor; [|constructor]]]].
    + apply HandledBody. unfold posts.
      split; [reflexivity|]. split; [reflexivity|].
      split; [vm_compute; discriminate|]. exists []. reflexivity.
    + apply HandledOtherPath. discriminate.
    + apply (HandledBadLength _ _ ValueError); reflexivity.
    + apply HandledBody. unfold posts.
      split; [reflexivity|]. split; [reflexivity|].
      split; [vm_compute; discriminate|]. exists []. reflexivity.
  - unfold writable. split; [reflexivity|]. vm_compute. lia.
Defined.

Lemma server_run_is_append_only_witness :
  log_file (snd (serve_forever (make_handler "/logs")
                   [sends (post "/logs" "5") hello]
                   full_fs)) <> None.
Proof.
  destruct (server_run_is_append_only
              "/logs" [sends (post "/logs" "5") hello] full_fs)
    as (suffix & _ & Hexists & _).
  apply Hexists. discriminate.
Defined.

Lemma later_endpoint_and_host_options_override_witness :
  main_config ["--port"; "8080"]%string
  = Ok (mkConfig (PyStr "0.0.0.0") (PyInt 8080) (PyStr "/logs")) /\
  is_argument "/ingest" = true /\
  main_config (["--port"; "8080"]%string ++ ["--endpoint"; "/ingest"]%string)
  = Ok (mkConfig (PyStr "0.0.0.0") (PyInt 8080) (PyStr "/ingest")) /\
  main_config (["--port"; "8080"]%string ++ ["--host"; "/ingest"]%string)
  = Ok (mkConfig (PyStr "/ingest") (PyInt 8080) (PyStr "/logs")).
Proof.
  split; [reflexivity|]. split; [reflexivity|].
  exact (later_endpoint_and_host_options_override
           ["--port"; "8080"]%string
           (mkConfig (PyStr "0.0.0.0") (PyInt 8080) (PyStr "/logs"))
           "/ingest" eq_refl eq_refl).
Defined.

Lemma port_option_is_converted_by_int_witness :
  is_argument "-5" = true /\
  main_config ([] ++ ["--port"; "-5"]%string)
  = Ok (mkConfig (PyStr "0.0.0.0") (PyInt (-5)) (PyStr "/logs")).
Proof.
  split; [reflexivity|].
  exact (port_option_is_converted_by_int
           [] (mkConfig (PyStr "0.0.0.0") (PyInt 9000) (PyStr "/logs"))
           "-5" eq_refl eq_refl).
Defined.

Lemma assignment_form_of_options_witness :
  main_config ([] ++ ["--endpoint=-x"]%string)
  = Ok (mkConfig (PyStr "0.0.0.0") (PyInt 9000) (PyStr "-x")) /\
  main_config ([] ++ ["--port=-x"]%string) = Raise (SystemExit 2).
Proof.
  assert (Hx : "-x"%string <> "--"%string) by discriminate.
  exact (assignment_form_of_options
           [] (mkConfig (PyStr "0.0.0.0") (PyInt 9000) (PyStr "/logs"))
           "-x" eq_refl Hx).
Defined.

Lemma leading_stray_argument_is_refused_witness :
  is_argument "/logs" = true /\
  main_config ["/logs"; "--port"; "8080"]%string
  <> Ok (mkConfig (PyStr "0.0.0.0") (PyInt 8080) (PyStr "/logs")).
Proof.
  split; [reflexivity|].
  exact (leading_stray_argument_is_refused
           "/logs" ["--port"; "8080"]%string
           (mkConfig (PyStr "0.0.0.0") (PyInt 8080) (PyStr "/logs"))
           eq_refl).
Defined.

Lemma decimal_content_length_is_accepted_witness :
  int (PyStr "0042") = Ok 42 /\
  fst (do_POST "/logs" (post "/logs" "0042") (arriving fresh_fs hello))
  <> Raise ValueError.
Proof.
  assert (Hne : "0042"%string <> EmptyString) by discriminate.
  assert (Hlen : (String.length "0042" <= int_max_str_digits)%nat)
    by (vm_compute; lia).
  destruct (decimal_content_length_is_accepted
              "/logs" (post "/logs" "0042") (arriving fresh_fs hello)
              "0042" Hne eq_refl Hlen) as (Hint & _ & Hrun).
  split; [exact Hint | exact (Hrun eq_refl eq_refl)].
Defined.
